(** * dvc repro: a shallow embedding of [dvc/command/repro.py]

    The command [dvc repro] walks the dependency graph recorded in the
    state files of a repository and re-runs the commands of the data files
    that are out of date.  This development embeds the two classes of
    [dvc/command/repro.py], [CmdRepro] (the driver) and [ReproChange]
    (one node of the walk), and proves properties of them.

    The Python code is effectful: it raises and catches exceptions, mutates
    the attribute [_code] of the one [CmdRepro] object every node shares,
    deletes files, and calls collaborators (git, the state storage, the path
    factory, the command executor, the logger).  The embedding is a state
    and exception monad that also records, in order, every call to a
    collaborator and every line that is logged. *)

From Stdlib Require Import ZArith String List Ascii Lia.
From stdpp Require Import base decidable gmap strings list.

(** ** Data model *)

(** [DataItem] of [dvc.path.data_item]: the three paths the code reads,
    [data_item.data.relative], [data_item.data.dvc] and
    [data_item.state.relative]. *)
Record DataItem : Type := mkDataItem {
  data_relative : string;
  data_dvc : string;
  state_relative : string
}.

(** The attributes of a loaded [StateFile] that [repro.py] reads.
    [norm_argv] is [None] when the state file has no such entry. *)
Record StateFile : Type := mkStateFile {
  file : string;
  norm_argv : option (list string);
  code_dependencies : list string;
  input_files : list string;
  is_reproducible : bool
}.

(** The exceptions that travel through the code.  [ReproError] is the class
    defined at the top of the module; [OSError] is what [os.remove] raises;
    [OtherError] stands for whatever else a collaborator may raise. *)
Inductive exn : Type :=
| ReproError (msg : string)
| OSError (filename : string)
| OtherError (msg : string).

Definition is_ReproError (e : exn) : bool :=
  match e with ReproError _ => true | _ => false end.

(** [str(err)]: the message the exception was built with. *)
Definition str_exn (e : exn) : string :=
  match e with
  | ReproError msg => msg
  | OSError f => f
  | OtherError msg => msg
  end.

(** What [path_factory.data_item(path)] does: it returns a data item, raises
    [NotInDataDirError], or raises some other exception. *)
Inductive Resolution : Type :=
| Resolved (d : DataItem)
| NotInDataDir
| ResolveFailed (ex : string).

Inductive Level : Type := Debug | Info | Error.

(** Everything the code does that can be observed from outside, in the
    order in which it does it: the calls to the collaborators (with what
    they answer, for those that only answer) and the lines that are logged
    or printed. *)
Inductive Event : Type :=
| EvLockAcquire (lock : string) (timeout : Z) (gotten : bool)
| EvLockRelease
| EvIsReadyToGo
| EvToDataItems (targets : list string)
| EvLoad (state_path : string) (state : StateFile)
| EvWereFilesChanged (path : string) (code : list string) (changed : bool)
| EvRemove (path : string)
| EvRunCommand (argv : list string) (items : list DataItem)
| EvCommit (message : string)
| EvNotCommittedWarning
| EvLog (lvl : Level) (msg : string)
| EvPrinting (msg : string)
| EvPrintReproduce (dvc : string)
| EvPrintDependencies
| EvPrintInputFiles (inputs : list string).

Definition is_load (e : Event) : bool :=
  match e with EvLoad _ _ => true | _ => false end.
Definition is_were_files_changed (e : Event) : bool :=
  match e with EvWereFilesChanged _ _ _ => true | _ => false end.
Definition is_remove (e : Event) : bool :=
  match e with EvRemove _ => true | _ => false end.
Definition is_run_command (e : Event) : bool :=
  match e with EvRunCommand _ _ => true | _ => false end.
Definition is_commit (e : Event) : bool :=
  match e with EvCommit _ => true | _ => false end.
Definition is_release (e : Event) : bool :=
  match e with EvLockRelease => true | _ => false end.
Definition is_to_data_items (e : Event) : bool :=
  match e with EvToDataItems _ => true | _ => false end.
Definition is_error_log (e : Event) : bool :=
  match e with EvLog Error _ => true | _ => false end.
Definition is_warning (e : Event) : bool :=
  match e with EvNotCommittedWarning => true | _ => false end.
Definition is_info_log (e : Event) : bool :=
  match e with EvLog Info _ => true | _ => false end.
Definition is_ready_event (e : Event) : bool :=
  match e with EvIsReadyToGo => true | _ => false end.

(** The events that come from a node ([ReproChange]): the state storage,
    git's change detector, the deletion, the command, and what a node
    prints and logs, all of it at the debug level. *)
Definition node_event (e : Event) : bool :=
  match e with
  | EvLoad _ _ | EvWereFilesChanged _ _ _ | EvRemove _ | EvRunCommand _ _
  | EvLog Debug _ | EvPrintReproduce _ | EvPrintDependencies
  | EvPrintInputFiles _ => true
  | _ => false
  end.

(** How often events of one kind occur in a trace. *)
Definition count (p : Event -> bool) (l : list Event) : nat :=
  length (List.filter p l).

(** The state file loaded last in a trace, if any was. *)
Fixpoint last_loaded (l : list Event) : option StateFile :=
  match l with
  | [] => None
  | e :: rest =>
      match last_loaded rest with
      | Some f => Some f
      | None => match e with EvLoad _ f => Some f | _ => None end
      end
  end.

(** The commands run in a trace, in order. *)
Definition commands_run (l : list Event) : list (list string) :=
  omap (fun e => match e with EvRunCommand argv _ => Some argv | _ => None end) l.

(** How a computation ends: it returns, it raises, or the recursion is
    deeper than the fuel it was given. *)
Inductive outcome (A : Type) : Type :=
| Ret (a : A)
| Raise (e : exn)
| OutOfFuel.
Arguments Ret {A} a.
Arguments Raise {A} e.
Arguments OutOfFuel {A}.

Definition returned {A} (o : outcome A) : bool :=
  match o with Ret _ => true | _ => false end.

(** ** Strings *)

(** The double quote of the messages. *)
Definition dq : string := String (ascii_of_nat 34) EmptyString.

(** [sep.join(l)] *)
Definition join (sep : string) (l : list string) : string :=
  String.concat sep l.

(** [sub in s] *)
Definition contains (sub s : string) : Prop :=
  exists pre post, s = pre +:+ sub +:+ post.

(** ** The world *)

Section Model.

(** The state of the repository as git and the state storage see it. *)
Context {Repo : Type}.

(** What the collaborators act on: the files that exist on disk and the
    repository. *)
Record Env : Type := mkEnv {
  files : gset string;
  repo : Repo
}.

(** Modelled from the spec: the collaborators of [repro.py], none of which is
    part of the module ([CmdBase], [CmdRun], the git object, [StateFile],
    the path factory, [fasteners]).  Each is taken with the contract
    section 6 of the specification gives it: [acquire(timeout) -> bool],
    [isReady() -> bool], [load(path) -> StateRecord],
    [filesChanged(path, code) -> bool], [resolve(path)] that returns an
    identity or fails, and [execute(argv)] that reports success or failure
    or raises, and that may change the files and the repository. *)
Record Collab : Type := mkCollab {
  skip_git_actions : bool;
  data_dir : string;
  lock_file : string;
  PARAM_NORM_ARGV : string;
  lock_acquire : string -> Z -> Env -> bool;
  is_ready_to_go : Env -> bool;
  data_item : string -> Resolution;
  load : string -> Env -> StateFile;
  were_files_changed : string -> list string -> Env -> bool;
  data_items_from_args : list string -> list DataItem;
  run_command : list string -> list DataItem -> Env -> (exn + bool) * Env
}.

(** The mutable state: the environment and [CmdRepro._code]. *)
Record State : Type := mkState {
  env : Env;
  code : list string
}.

(** ** The monad *)

Record Res (A : Type) : Type := mkRes {
  out : outcome A;
  st : State;
  evs : list Event
}.
Arguments mkRes {A} out st evs.
Arguments out {A} r.
Arguments st {A} r.
Arguments evs {A} r.

Definition M (A : Type) : Type := State -> Res A.

Definition ret {A} (a : A) : M A := fun s => mkRes (Ret a) s [].

Definition raise {A} (e : exn) : M A := fun s => mkRes (Raise e) s [].

Definition out_of_fuel {A} : M A := fun s => mkRes OutOfFuel s [].

Definition bind {A B} (m : M A) (k : A -> M B) : M B := fun s =>
  let r := m s in
  match out r with
  | Ret a => let r' := k a (st r) in mkRes (out r') (st r') (evs r ++ evs r')
  | Raise e => mkRes (Raise e) (st r) (evs r)
  | OutOfFuel => mkRes OutOfFuel (st r) (evs r)
  end.

(** [try: m except ReproError as err: h(err)] *)
Definition try_except_ReproError {A} (m : M A) (h : exn -> M A) : M A := fun s =>
  let r := m s in
  match out r with
  | Raise (ReproError msg) =>
      let r' := h (ReproError msg) (st r) in
      mkRes (out r') (st r') (evs r ++ evs r')
  | _ => r
  end.

(** [try: m finally: f].  The clean-up runs when [m] returns and when it
    raises; a computation that never comes back never reaches it. *)
Definition try_finally {A} (m : M A) (f : M unit) : M A := fun s =>
  let r := m s in
  match out r with
  | OutOfFuel => r
  | o =>
      let r' := f (st r) in
      match out r' with
      | Ret _ => mkRes o (st r') (evs r ++ evs r')
      | Raise e => mkRes (Raise e) (st r') (evs r ++ evs r')
      | OutOfFuel => mkRes OutOfFuel (st r') (evs r ++ evs r')
      end
  end.

Definition emit (e : Event) : M unit := fun s => mkRes (Ret tt) s [e].

Definition get_env : M Env := fun s => mkRes (Ret (env s)) s [].

Definition put_env (e : Env) : M unit := fun s =>
  mkRes (Ret tt) (mkState e (code s)) [].

Definition set_code (c : list string) : M unit := fun s =>
  mkRes (Ret tt) (mkState (env s) c) [].

End Model.

Arguments Env Repo : clear implicits.
Arguments Collab Repo : clear implicits.
Arguments State Repo : clear implicits.
Arguments M Repo A : clear implicits.
Arguments Res Repo A : clear implicits.
Arguments mkRes {Repo A} out st evs.
Arguments out {Repo A} r.
Arguments st {Repo A} r.
Arguments evs {Repo A} r.
Arguments mkEnv {Repo} files repo.
Arguments files {Repo} e.
Arguments repo {Repo} e.
Arguments mkState {Repo} env code.
Arguments env {Repo} s.
Arguments code {Repo} s.

Declare Scope repro_scope.
Delimit Scope repro_scope with repro.
Notation "x <- m ;; k" := (bind m (fun x => k))
  (at level 200, m at level 99, k at level 200, right associativity) : repro_scope.
Notation "m ;;; k" := (bind m (fun _ => k))
  (at level 99, k at level 200, right associativity) : repro_scope.

Local Open Scope repro_scope.

(** ** The program *)

Section Program.

Context {Repo : Type} (C : Collab Repo).

(** *** Collaborator calls *)

(** [Logger.debug], [Logger.info], [Logger.error] *)
Definition Logger (lvl : Level) (msg : string) : M Repo unit := emit (EvLog lvl msg).

(** [Logger.printing] *)
Definition Logger_printing (msg : string) : M Repo unit := emit (EvPrinting msg).

(** [ReproError(msg)]: the constructor hands ['Run error: {}'.format(msg)]
    to [DvcException]. *)
Definition mkReproError (msg : string) : exn :=
  ReproError ("Run error: " +:+ msg).

(** [StateFile.load(path, self.git)] *)
Definition StateFile_load (path : string) : M Repo StateFile :=
  e <- get_env ;;
  emit (EvLoad path (load C path e)) ;;;
  ret (load C path e).

(** [self.git.were_files_changed(path, code)] *)
Definition git_were_files_changed (path : string) (deps : list string) : M Repo bool :=
  e <- get_env ;;
  emit (EvWereFilesChanged path deps (were_files_changed C path deps e)) ;;;
  ret (were_files_changed C path deps e).

(** [os.remove(path)]: deletes the file, and raises [OSError] when there is
    no such file. *)
Definition os_remove (path : string) : M Repo unit :=
  emit (EvRemove path) ;;;
  e <- get_env ;;
  if decide (path ∈ files e)
  then put_env (mkEnv (files e ∖ {[path]}) (repo e))
  else raise (OSError path).

(** [self._cmd_obj.run_command(argv, items)] *)
Definition cmd_run_command (argv : list string) (items : list DataItem) : M Repo bool :=
  emit (EvRunCommand argv items) ;;;
  e <- get_env ;;
  put_env (snd (run_command C argv items e)) ;;;
  match fst (run_command C argv items e) with
  | inl ex => raise ex
  | inr b => ret b
  end.

(** [lock.acquire(timeout=t)] on [fasteners.InterProcessLock(lock)] *)
Definition lock_acquire_call (lock : string) (t : Z) : M Repo bool :=
  e <- get_env ;;
  emit (EvLockAcquire lock t (lock_acquire C lock t e)) ;;;
  ret (lock_acquire C lock t e).

(** [lock.release()] *)
Definition lock_release : M Repo unit := emit EvLockRelease.

(** [self.git.is_ready_to_go()] *)
Definition git_is_ready_to_go : M Repo bool :=
  emit EvIsReadyToGo ;;;
  e <- get_env ;;
  ret (is_ready_to_go C e).

(** [self.not_committed_changes_warning()] of [CmdBase] *)
Definition not_committed_changes_warning : M Repo unit := emit EvNotCommittedWarning.

(** Modelled from the spec: [commit_if_needed] of [CmdBase], which is not in
    the module.  Section 4.2, step 6: "trigger a commit of the resulting
    changes with a message naming the reproduced targets, and return
    success". *)
Definition commit_if_needed (message : string) : M Repo Z :=
  emit (EvCommit message) ;;;
  ret 0%Z.

(** Modelled from the spec: [path_factory.to_data_items] is not in the
    module.  Section 4.2, step 4: each target is resolved by the dependency
    resolver, and "any target that resolves outside the managed tree is
    collected as an external file".  A resolution that fails otherwise is
    not caught. *)
Fixpoint to_data_items_from (targets : list string)
    (result : list DataItem) (external : list string)
  : exn + (list DataItem * list string) :=
  match targets with
  | [] => inr (result, external)
  | f :: rest =>
      match data_item C f with
      | Resolved d => to_data_items_from rest (result ++ [d]) external
      | NotInDataDir => to_data_items_from rest result (external ++ [f])
      | ResolveFailed ex => inl (OtherError ex)
      end
  end.

Definition to_data_items (targets : list string) : M Repo (list DataItem * list string) :=
  emit (EvToDataItems targets) ;;;
  match to_data_items_from targets [] [] with
  | inl ex => raise ex
  | inr r => ret r
  end.

(** *** class ReproChange *)

Record ReproChange : Type := mkReproChange {
  _data_item : DataItem;
  _state : StateFile;
  _repro_argv : list string
}.

(** [ReproChange.__init__(data_item, cmd_obj)].  [not argv] holds of [None]
    and of the empty list. *)
Definition ReproChange_init (data_item : DataItem) : M Repo ReproChange :=
  state <- StateFile_load (state_relative data_item) ;;
  set_code (code_dependencies state) ;;;
  match norm_argv state with
  | None | Some [] =>
      raise (mkReproError
        ("Error: parameter " +:+ PARAM_NORM_ARGV C +:+
         " is nor defined in state file " +:+ dq +:+
         state_relative data_item +:+ dq))
  | Some argv =>
      if (length argv <? 2)%nat
      then raise (mkReproError
        ("Error: reproducible cmd in state file " +:+ dq +:+
         file state +:+ dq +:+ " is too short"))
      else ret (mkReproChange data_item state argv)
  end.

(** [ReproChange.reproduce_data_file] *)
Definition reproduce_data_file (self : ReproChange) : M Repo bool :=
  Logger Debug ("Reproducing data file " +:+ dq +:+
                data_relative (_data_item self) +:+ dq +:+
                ". Removing the file...") ;;;
  os_remove (data_relative (_data_item self)) ;;;
  Logger Debug ("Reproducing data file " +:+ dq +:+
                data_relative (_data_item self) +:+ dq +:+
                ". Re-runs cmd: " +:+ join " " (_repro_argv self)) ;;;
  cmd_run_command (_repro_argv self)
                  (data_items_from_args C (_repro_argv self)).

(** What [reproduce_data_file] leaves in the trace from the removal on,
    when the output is on disk. *)
Definition regeneration (self : ReproChange) : list Event :=
  [EvRemove (data_relative (_data_item self));
   EvLog Debug ("Reproducing data file " +:+ dq +:+
                data_relative (_data_item self) +:+ dq +:+
                ". Re-runs cmd: " +:+ join " " (_repro_argv self));
   EvRunCommand (_repro_argv self)
                (data_items_from_args C (_repro_argv self))].

(** The body of the loop of [get_dependencies]: [NotInDataDirError] and
    every other exception of the path factory become a [ReproError]. *)
Fixpoint get_dependencies_from (inputs : list string)
    (dependency_data_items : list DataItem) : M Repo (list DataItem) :=
  match inputs with
  | [] => ret dependency_data_items
  | input_file :: rest =>
      match data_item C input_file with
      | Resolved d => get_dependencies_from rest (dependency_data_items ++ [d])
      | NotInDataDir =>
          raise (mkReproError
            ("The dependency file " +:+ dq +:+ input_file +:+ dq +:+
             " is not a data item"))
      | ResolveFailed ex =>
          raise (mkReproError
            ("Unable to reproduced the dependency file " +:+ dq +:+
             input_file +:+ dq +:+ ": " +:+ ex))
      end
  end.

(** [ReproChange.get_dependencies] *)
Definition get_dependencies (self : ReproChange) : M Repo (list DataItem) :=
  emit (EvPrintInputFiles (input_files (_state self))) ;;;
  get_dependencies_from (input_files (_state self)) [].

(** The loop of [reproduce] over the dependencies; [rec] is [reproduce]
    itself, one level down. *)
Fixpoint reproduce_dependencies (rec : ReproChange -> bool -> M Repo bool)
    (deps : list DataItem) (force : bool) (were_input_files_changed : bool)
  : M Repo bool :=
  match deps with
  | [] => ret were_input_files_changed
  | data_item :: rest =>
      change <- ReproChange_init data_item ;;
      b <- rec change force ;;
      reproduce_dependencies rec rest force
        (if b then true else were_input_files_changed)
  end.

(** [ReproChange.reproduce(force)].  The recursion follows the state files,
    which nothing forces to be acyclic: [fuel] bounds its depth.  A
    recursion that does not fit gives [OutOfFuel], which stands for no
    behaviour of the code: CPython ends a recursion that is too deep with
    [RecursionError], at a frame that depends on code outside of this
    module.  What is proved of [OutOfFuel] is only that it does not occur
    when the depth suffices. *)
Fixpoint reproduce (fuel : nat) (self : ReproChange) (force : bool) : M Repo bool :=
  match fuel with
  | O => out_of_fuel
  | S fuel' =>
      emit (EvPrintReproduce (data_dvc (_data_item self))) ;;;
      if negb (is_reproducible (_state self))
      then
        Logger Debug ("Data file " +:+ dq +:+
                      data_relative (_data_item self) +:+ dq +:+
                      " is not reproducible") ;;;
        ret false
      else
        get_dependencies self ;;;
        emit EvPrintDependencies ;;;
        deps <- get_dependencies self ;;
        were_input_files_changed <-
          reproduce_dependencies (reproduce fuel') deps force false ;;
        was_source_code_changed <-
          git_were_files_changed (data_relative (_data_item self))
                                 (code_dependencies (_state self)) ;;
        if negb force && negb was_source_code_changed
           && negb were_input_files_changed
        then
          Logger Debug ("Data file " +:+ dq +:+
                        data_relative (_data_item self) +:+ dq +:+
                        " is up to date") ;;;
          ret false
        else reproduce_data_file self
  end.

(** *** class CmdRepro *)

(** One round of the loop of [repro_data_items]: the [try] block and its
    handler.  [None] is the [break]. *)
Definition repro_data_item (fuel : nat) (data_item : DataItem) (changed : bool)
  : M Repo (option bool) :=
  try_except_ReproError
    (repro_change <- ReproChange_init data_item ;;
     b <- reproduce fuel repro_change false ;;
     if b
     then
       Logger Info ("Data file " +:+ dq +:+ data_relative data_item +:+ dq +:+
                    " was reproduced.") ;;;
       ret (Some true)
     else
       Logger Info ("Reproduction is not required for data file " +:+ dq +:+
                    data_relative data_item +:+ dq +:+ ".") ;;;
       ret (Some changed))
    (fun err =>
       Logger Error ("Error in reproducing data file " +:+
                     data_relative data_item +:+ ": " +:+ str_exn err) ;;;
       ret None).

(** The loop of [repro_data_items]; it returns [(error, changed)]. *)
Fixpoint repro_data_items_loop (fuel : nat) (data_item_list : list DataItem)
    (changed : bool) : M Repo (bool * bool) :=
  match data_item_list with
  | [] => ret (false, changed)
  | data_item :: rest =>
      r <- repro_data_item fuel data_item changed ;;
      match r with
      | Some changed' => repro_data_items_loop fuel rest changed'
      | None => ret (true, changed)
      end
  end.

(** [CmdRepro.repro_data_items] *)
Definition repro_data_items (fuel : nat) (data_item_list : list DataItem) : M Repo bool :=
  r <- repro_data_items_loop fuel data_item_list false ;;
  (if fst r && negb (skip_git_actions C)
   then
     Logger Error "Errors occurred. One or more repro cmd was not successful." ;;;
     not_committed_changes_warning
   else ret tt) ;;;
  ret (snd r && negb (fst r)).

(** The [try] block of [CmdRepro.run]; falling out of it leads to the
    [return 1] at the end of [run]. *)
Definition run_body (fuel : nat) (target : list string) : M Repo Z :=
  not_ready <-
    (if negb (skip_git_actions C)
     then ready <- git_is_ready_to_go ;; ret (negb ready)
     else ret false) ;;
  if (not_ready : bool)
  then ret 1%Z
  else
    r <- to_data_items target ;;
    match snd r with
    | _ :: _ =>
        Logger Error ("Files from outside of the data directory " +:+ dq +:+
                      data_dir C +:+ dq +:+ " could not be reproduced: " +:+
                      join " " (snd r)) ;;;
        ret 1%Z
    | [] =>
        ok <- repro_data_items fuel (fst r) ;;
        if (ok : bool)
        then commit_if_needed ("DVC repro: " +:+ join " " target)
        else ret 1%Z
    end.

(** [CmdRepro.run], with [self.args.target] as its argument. *)
Definition run (fuel : nat) (target : list string) : M Repo Z :=
  gotten <- lock_acquire_call (lock_file C) 5%Z ;;
  if negb gotten
  then
    Logger_printing "Cannot perform the cmd since DVC is busy and locked. Please retry the cmd later." ;;;
    ret 1%Z
  else try_finally (run_body fuel target) lock_release.

(** [CmdRepro.__init__]: the state a command starts in, [_code = []]. *)
Definition CmdRepro_init (e : Env Repo) : State Repo := mkState e [].

(** What [repro_data_items] adds when a target raised a [ReproError]. *)
Definition errors_occurred : list Event :=
  if skip_git_actions C then []
  else [EvLog Error "Errors occurred. One or more repro cmd was not successful.";
        EvNotCommittedWarning].

(** What [run] does before it resolves the targets. *)
Definition readiness_check : list Event :=
  if skip_git_actions C then [] else [EvIsReadyToGo].

(** The message of [run] about the targets outside of the data directory. *)
Definition external_files_message (external : list string) : string :=
  "Files from outside of the data directory " +:+ dq +:+ data_dir C +:+ dq +:+
  " could not be reproduced: " +:+ join " " external.

(** A target the path factory places outside of the data directory. *)
Definition is_external (target : string) : bool :=
  match data_item C target with NotInDataDir => true | _ => false end.

(** A target for which the path factory fails in another way. *)
Definition resolve_fails (target : string) : bool :=
  match data_item C target with ResolveFailed _ => true | _ => false end.

(** The data items of the targets that resolve. *)
Definition resolved (targets : list string) : list DataItem :=
  omap (fun t => match data_item C t with Resolved d => Some d | _ => None end)
       targets.

(** *** What a loop over data items does, item by item *)

(** Both loops of the module, the one of [reproduce] over the dependencies
    and the one of [repro_data_items] over the targets, do the same to each
    item: [ReproChange(data_item, cmd_obj).reproduce(force)]. *)
Definition reproduce_item (fuel : nat) (force : bool) (data_item : DataItem)
  : M Repo bool :=
  change <- ReproChange_init data_item ;;
  reproduce fuel change force.

(** The results of the items a loop gets to, in order: the loop goes on to
    the next item when one returns and stops at the first that does not. *)
Fixpoint item_results (fuel : nat) (force : bool) (items : list DataItem)
    (s : State Repo) : list (Res Repo bool) :=
  match items with
  | [] => []
  | d :: rest =>
      let r := reproduce_item fuel force d s in
      r :: (if returned (out r) then item_results fuel force rest (st r) else [])
  end.

End Program.

(** The lines [reproduce] prints for a reproducible node before it turns
    to the dependencies; [get_dependencies] runs twice, and prints twice. *)
Definition prologue (self : ReproChange) : list Event :=
  [EvPrintReproduce (data_dvc (_data_item self));
   EvPrintInputFiles (input_files (_state self));
   EvPrintDependencies;
   EvPrintInputFiles (input_files (_state self))].

(** What a list of results amounts to. *)
Section Results.

Context {Repo : Type}.

Definition reported_changed (r : Res Repo bool) : bool :=
  match out r with Ret true => true | _ => false end.

(** Some item reported that it was reproduced. *)
Definition any_changed (rs : list (Res Repo bool)) : bool :=
  existsb reported_changed rs.

(** Every item returned: none raised, none ran out of fuel. *)
Definition all_returned (rs : list (Res Repo bool)) : bool :=
  forallb (fun r => returned (out r)) rs.

(** The events of all the items, in order. *)
Definition all_events (rs : list (Res Repo bool)) : list Event :=
  concat (map evs rs).

(** The state the last item leaves, [s] when there is no item. *)
Definition last_state (s : State Repo) (rs : list (Res Repo bool)) : State Repo :=
  List.last (map st rs) s.

(** The outcome of the last item the loop got to; when it is not a return,
    it is what stopped the loop. *)
Definition last_out (rs : list (Res Repo bool)) : outcome bool :=
  List.last (map out rs) (Ret false).

(** What [repro_data_items] logs about a target once it is done with it. *)
Definition item_log (d : DataItem) (o : outcome bool) : list Event :=
  match o with
  | Ret true =>
      [EvLog Info ("Data file " +:+ dq +:+ data_relative d +:+ dq +:+
                   " was reproduced.")]
  | Ret false =>
      [EvLog Info ("Reproduction is not required for data file " +:+ dq +:+
                   data_relative d +:+ dq +:+ ".")]
  | Raise (ReproError msg) =>
      [EvLog Error ("Error in reproducing data file " +:+ data_relative d +:+
                    ": " +:+ msg)]
  | _ => []
  end.

(** The events of a run over the targets: those of each target, each
    followed by the line logged about it. *)
Fixpoint target_events (items : list DataItem) (rs : list (Res Repo bool))
  : list Event :=
  match items, rs with
  | d :: items', r :: rs' =>
      evs r ++ item_log d (out r) ++ target_events items' rs'
  | _, _ => []
  end.

(** What [_code] holds after a trace that started in [s]: the code
    dependencies of the state file loaded last, and what it held in [s]
    when none was loaded. *)
Definition code_after (s : State Repo) (l : list Event) : list string :=
  match last_loaded l with
  | Some f => code_dependencies f
  | None => code s
  end.

End Results.


(** ** A small repository to run the program on *)

Module Demo.

(** The repository is the set of paths git reports as changed. *)
Definition Repo : Type := gset string.

Definition item (name : string) : DataItem :=
  mkDataItem ("data/" +:+ name) name ("state/" +:+ name).

(** Paths under [data/] are data items; the empty path makes the factory
    fail; every other path is outside the data directory. *)
Definition resolve (path : string) : Resolution :=
  match path with
  | EmptyString => ResolveFailed "empty path"
  | _ =>
      if String.prefix "data/" path
      then Resolved (item (String.substring 5 (String.length path - 5) path))
      else NotInDataDir
  end.

Definition python (script : string) (args : list string) : option (list string) :=
  Some ("python" :: script :: args).

(** The state files: [a] is made from [b], [b] from [c]; [raw] is an
    imported file that is not reproducible; [short] and [noargv] have no
    usable command; [t] is made from [c] and [short]; [u] and [v] are made
    from nothing, [v] by a command that reports a failure; [manual] is not
    reproducible and has no command either; [loop] is made from itself. *)
Definition states : gmap string StateFile :=
  list_to_map
    [ ("state/a", mkStateFile "state/a" (python "code/a.py" ["data/b"; "data/a"])
                    ["code/a.py"] ["data/b"] true);
      ("state/b", mkStateFile "state/b" (python "code/b.py" ["data/c"; "data/b"])
                    ["code/b.py"] ["data/c"] true);
      ("state/c", mkStateFile "state/c" (python "code/c.py" ["data/c"])
                    ["code/c.py"] [] true);
      ("state/raw", mkStateFile "state/raw" (python "code/get.py" ["data/c"; "data/raw"])
                    ["code/get.py"] ["data/c"] false);
      ("state/short", mkStateFile "state/short" (Some ["make"]) [] [] true);
      ("state/noargv", mkStateFile "state/noargv" None [] [] true);
      ("state/t", mkStateFile "state/t" (python "code/t.py" ["data/c"; "data/short"; "data/t"])
                    ["code/t.py"] ["data/c"; "data/short"] true);
      ("state/u", mkStateFile "state/u" (python "code/u.py" ["data/u"])
                    ["code/u.py"] [] true);
      ("state/v", mkStateFile "state/v" (Some ["false"; "data/v"])
                    ["code/v.py"] [] true);
      ("state/x", mkStateFile "state/x" (python "code/x.py" ["/tmp/in"; "data/x"])
                    ["code/x.py"] ["/tmp/in"] true);
      ("state/manual", mkStateFile "state/manual" None [] [] false);
      ("state/loop", mkStateFile "state/loop" (python "code/loop.py" ["data/loop"])
                    ["code/loop.py"] ["data/loop"] true) ].

(** The state file of a data file, as the state storage answers. *)
Definition state_of (name : string) : StateFile :=
  default (mkStateFile ("state/" +:+ name) None [] [] true)
          (states !! ("state/" +:+ name)).

(** The node of a data file whose command is well formed. *)
Definition node (name : string) : ReproChange :=
  mkReproChange (item name) (state_of name)
                (default [] (norm_argv (state_of name))).

Definition resolved_items (argv : list string) : list DataItem :=
  omap (fun a => match resolve a with Resolved d => Some d | _ => None end) argv.

(** The executor writes the data files named on the command line; the
    command [false] reports a failure and writes nothing. *)
Definition execute (argv : list string) (items : list DataItem) (e : Env Repo)
  : (exn + bool) * Env Repo :=
  match argv with
  | "false" :: _ => (inr false, e)
  | _ => (inr true, mkEnv (files e ∪ list_to_set (map data_relative items)) (repo e))
  end.

Definition collab (skip busy : bool) : Collab Repo :=
  {| skip_git_actions := skip;
     data_dir := "data";
     lock_file := ".dvc.lock";
     PARAM_NORM_ARGV := "NormArgv";
     lock_acquire := fun _ _ _ => negb busy;
     is_ready_to_go := fun _ => true;
     data_item := resolve;
     load := fun path _ => default (mkStateFile path None [] [] true) (states !! path);
     were_files_changed := fun path deps e =>
       existsb (fun p => bool_decide (p ∈ repo e)) (path :: deps);
     data_items_from_args := resolved_items;
     run_command := execute |}.

(** Every data file is on disk; [changed] are the paths git reports. *)
Definition all_files : gset string :=
  list_to_set ["data/a"; "data/b"; "data/c"; "data/raw"; "data/short";
               "data/noargv"; "data/t"; "data/u"; "data/v"; "data/x"].

Definition world (on_disk changed : gset string) : State Repo :=
  CmdRepro_init (mkEnv on_disk changed).

(** The driver with git actions, the driver with [skip_git_actions], and
    the driver in a repository that another process has locked. *)
Definition git : Collab Repo := collab false false.
Definition nogit : Collab Repo := collab true false.
Definition busy : Collab Repo := collab false true.

(** Nothing changed; the script of [c] changed; the script of [u] changed
    and its output is not on disk. *)
Definition clean : State Repo := world all_files ∅.
Definition c_changed : State Repo := world all_files {["code/c.py"]}.
Definition u_missing : State Repo :=
  world (all_files ∖ {["data/u"]}) {["code/u.py"]}.

(** The state a node of the data file [name] starts [reproduce] in, when
    it was constructed in [s]. *)
Definition constructed (name : string) (s : State Repo) : State Repo :=
  mkState (env s) (code_dependencies (state_of name)).

(** How far a data file is from the data files that are made from
    nothing, [loop] left aside. *)
Definition rank (d : DataItem) : nat :=
  if decide (state_relative d = "state/a") then 2
  else if decide (state_relative d = "state/b") then 1
  else if decide (state_relative d = "state/t") then 1
  else if decide (state_relative d = "state/raw") then 1
  else 0.

(** The driver on the repository without the state file of [loop]. *)
Definition acyclic : Collab Repo :=
  {| skip_git_actions := false;
     data_dir := "data";
     lock_file := ".dvc.lock";
     PARAM_NORM_ARGV := "NormArgv";
     lock_acquire := fun _ _ _ => true;
     is_ready_to_go := fun _ => true;
     data_item := resolve;
     load := fun path _ =>
       default (mkStateFile path None [] [] true)
               (delete "state/loop" states !! path);
     were_files_changed := fun path deps e =>
       existsb (fun p => bool_decide (p ∈ repo e)) (path :: deps);
     data_items_from_args := resolved_items;
     run_command := execute |}.

(** The repository with one more data file, [a2], made from [b] and from
    [short], whose command is too short. *)
Definition more_states : gmap string StateFile :=
  <["state/a2" :=
      mkStateFile "state/a2"
        (python "code/a2.py" ["data/b"; "data/short"; "data/a2"])
        ["code/a2.py"] ["data/b"; "data/short"] true]> states.

Definition git_more : Collab Repo :=
  {| skip_git_actions := false;
     data_dir := "data";
     lock_file := ".dvc.lock";
     PARAM_NORM_ARGV := "NormArgv";
     lock_acquire := fun _ _ _ => true;
     is_ready_to_go := fun _ => true;
     data_item := resolve;
     load := fun path _ =>
       default (mkStateFile path None [] [] true) (more_states !! path);
     were_files_changed := fun path deps e =>
       existsb (fun p => bool_decide (p ∈ repo e)) (path :: deps);
     data_items_from_args := resolved_items;
     run_command := execute |}.

Definition node_a2 : ReproChange :=
  mkReproChange (item "a2")
    (default (mkStateFile "state/a2" None [] [] true) (more_states !! "state/a2"))
    ["python"; "code/a2.py"; "data/b"; "data/short"; "data/a2"].

(** The message of the constructor about a state file without a command. *)
Definition no_command (name : string) : string :=
  "Run error: Error: parameter NormArgv is nor defined in state file " +:+
  dq +:+ "state/" +:+ name +:+ dq.

End Demo.


(** ** Properties *)

Section Proofs.

Context {Repo : Type} (C : Collab Repo).

(** *** The monad *)

Lemma Res_eta {A} (r : Res Repo A) : r = mkRes (out r) (st r) (evs r).
Proof. destruct r; reflexivity. Qed.

Lemma bind_assoc {A B D} (m : M Repo A) (f : A -> M Repo B) (g : B -> M Repo D) s :
  bind (bind m f) g s = bind m (fun x => bind (f x) g) s.
Proof.
  unfold bind.
  destruct (m s) as [[a|e|] s1 ev1]; simpl; try reflexivity.
  destruct (f a s1) as [[b|e|] s2 ev2]; simpl; try reflexivity.
  destruct (g b s2) as [o s3 ev3]; simpl.
  destruct o; rewrite app_assoc; reflexivity.
Qed.

Lemma bind_Ret {A B} (m : M Repo A) (k : A -> M Repo B) s a :
  out (m s) = Ret a ->
  bind m k s = mkRes (out (k a (st (m s)))) (st (k a (st (m s))))
                     (evs (m s) ++ evs (k a (st (m s)))).
Proof. intros H. unfold bind. rewrite H. reflexivity. Qed.

Lemma bind_Raise {A B} (m : M Repo A) (k : A -> M Repo B) s e :
  out (m s) = Raise e ->
  bind m k s = mkRes (Raise e) (st (m s)) (evs (m s)).
Proof. intros H. unfold bind. rewrite H. reflexivity. Qed.

Lemma bind_OutOfFuel {A B} (m : M Repo A) (k : A -> M Repo B) s :
  out (m s) = OutOfFuel ->
  bind m k s = mkRes OutOfFuel (st (m s)) (evs (m s)).
Proof. intros H. unfold bind. rewrite H. reflexivity. Qed.

Lemma bind_eq {A B} (m : M Repo A) (k : A -> M Repo B) s r :
  m s = r ->
  bind m k s =
    match out r with
    | Ret a => mkRes (out (k a (st r))) (st (k a (st r))) (evs r ++ evs (k a (st r)))
    | Raise e => mkRes (Raise e) (st r) (evs r)
    | OutOfFuel => mkRes OutOfFuel (st r) (evs r)
    end.
Proof. intros <-. reflexivity. Qed.

Lemma bind_emit {B} e (k : unit -> M Repo B) s :
  bind (emit e) k s = mkRes (out (k tt s)) (st (k tt s)) (e :: evs (k tt s)).
Proof. reflexivity. Qed.

Lemma bind_ret {A B} (a : A) (k : A -> M Repo B) s :
  bind (ret a) k s = k a s.
Proof. unfold bind, ret; simpl. symmetry. apply Res_eta. Qed.

(** *** Counting events *)

Lemma count_app p (l1 l2 : list Event) : count p (l1 ++ l2) = (count p l1 + count p l2)%nat.
Proof. unfold count. rewrite List.filter_app, length_app. reflexivity. Qed.

Lemma count_cons p e (l : list Event) :
  count p (e :: l) = ((if p e then 1 else 0) + count p l)%nat.
Proof. unfold count. simpl. destruct (p e); reflexivity. Qed.

Lemma count_nil p : count p [] = 0%nat.
Proof. reflexivity. Qed.

Lemma count_zero_Forall p (l : list Event) :
  count p l = 0%nat <-> List.Forall (fun e => p e = false) l.
Proof.
  induction l as [|e l IH].
  - split; [constructor | reflexivity].
  - rewrite count_cons. split.
    + intros H. destruct (p e) eqn:E; [discriminate |].
      constructor; [assumption | apply IH; exact H].
    + intros H. inversion H as [|? ? He Hl]; subst. rewrite He. apply IH, Hl.
Qed.

(** *** Strings *)

Lemma append_assoc (a b c : string) : (a +:+ b) +:+ c = a +:+ (b +:+ c).
Proof.
  induction a as [|x a IH]; [reflexivity |].
  change (String x ((a +:+ b) +:+ c) = String x (a +:+ b +:+ c)).
  rewrite IH. reflexivity.
Qed.

Lemma append_nil_r (a : string) : a +:+ EmptyString = a.
Proof.
  induction a as [|x a IH]; [reflexivity |].
  change (String x (a +:+ EmptyString) = String x a).
  rewrite IH. reflexivity.
Qed.

Lemma contains_refl s : contains s s.
Proof. exists EmptyString, EmptyString. simpl. rewrite append_nil_r. reflexivity. Qed.

Lemma contains_append_l sub a b : contains sub a -> contains sub (a +:+ b).
Proof.
  intros (pre & post & ->). exists pre, (post +:+ b).
  rewrite !append_assoc. reflexivity.
Qed.

Lemma contains_append_r sub a b : contains sub b -> contains sub (a +:+ b).
Proof.
  intros (pre & post & ->). exists (a +:+ pre), post.
  rewrite !append_assoc. reflexivity.
Qed.

(** Every element of a list occurs in the joined string. *)
Lemma contains_join sep (l : list string) x : In x l -> contains x (join sep l).
Proof.
  unfold join. induction l as [|y l IH]; intros Hin; [destruct Hin |].
  destruct Hin as [-> | Hin].
  - destruct l as [|z l]; simpl.
    + apply contains_refl.
    + apply contains_append_l, contains_refl.
  - destruct l as [|z l]; [destruct Hin |].
    change (String.concat sep (y :: z :: l))
      with (y +:+ sep +:+ String.concat sep (z :: l)).
    apply contains_append_r, contains_append_r, IH, Hin.
Qed.

(** *** The node: construction *)

(** What the constructor does in full: it loads the state file, replaces
    [_code], and checks the command. *)
Lemma ReproChange_init_spec (d : DataItem) (s : State Repo) :
  let state := load C (state_relative d) (env s) in
  ReproChange_init C d s =
    mkRes
      (match norm_argv state with
       | None | Some [] =>
           Raise (mkReproError
             ("Error: parameter " +:+ PARAM_NORM_ARGV C +:+
              " is nor defined in state file " +:+ dq +:+
              state_relative d +:+ dq))
       | Some argv =>
           if (length argv <? 2)%nat
           then Raise (mkReproError
             ("Error: reproducible cmd in state file " +:+ dq +:+
              file state +:+ dq +:+ " is too short"))
           else Ret (mkReproChange d state argv)
       end)
      (mkState (env s) (code_dependencies state))
      [EvLoad (state_relative d) state].
Proof.
  unfold ReproChange_init, StateFile_load, bind; simpl.
  destruct (norm_argv (load C (state_relative d) (env s))) as [[|a argv]|];
    simpl; try reflexivity.
  destruct (S (length argv) <? 2)%nat; reflexivity.
Qed.

Lemma ReproChange_init_out_cases (d : DataItem) (s : State Repo) :
  (exists e, out (ReproChange_init C d s) = Raise e /\ is_ReproError e = true)
  \/ (exists argv,
        norm_argv (load C (state_relative d) (env s)) = Some argv /\
        (2 <= length argv)%nat /\
        out (ReproChange_init C d s) =
          Ret (mkReproChange d (load C (state_relative d) (env s)) argv)).
Proof.
  rewrite ReproChange_init_spec; simpl.
  destruct (norm_argv (load C (state_relative d) (env s))) as [[|a argv]|].
  - left. eexists; split; reflexivity.
  - destruct (length (a :: argv) <? 2)%nat eqn:E.
    + left. eexists; split; reflexivity.
    + right. exists (a :: argv). apply Nat.ltb_ge in E. auto.
  - left. eexists; split; reflexivity.
Qed.

(** *** The node: regeneration *)

Lemma reproduce_data_file_present (self : ReproChange) (s : State Repo) :
  let p := data_relative (_data_item self) in
  let argv := _repro_argv self in
  let items := data_items_from_args C argv in
  let rc := run_command C argv items
              (mkEnv (files (env s) ∖ {[p]}) (repo (env s))) in
  p ∈ files (env s) ->
  reproduce_data_file C self s =
    mkRes (match fst rc with inl ex => Raise ex | inr b => Ret b end)
          (mkState (snd rc) (code s))
          [EvLog Debug ("Reproducing data file " +:+ dq +:+ p +:+ dq +:+
                        ". Removing the file...");
           EvRemove p;
           EvLog Debug ("Reproducing data file " +:+ dq +:+ p +:+ dq +:+
                        ". Re-runs cmd: " +:+ join " " argv);
           EvRunCommand argv items].
Proof.
  intros p argv items rc Hin.
  unfold reproduce_data_file, os_remove, cmd_run_command, Logger, bind; simpl.
  fold p. destruct (decide (p ∈ files (env s))) as [_|Hn]; [|contradiction].
  simpl. fold argv items rc.
  destruct (fst rc); reflexivity.
Qed.

Lemma reproduce_data_file_absent (self : ReproChange) (s : State Repo) :
  let p := data_relative (_data_item self) in
  p ∉ files (env s) ->
  reproduce_data_file C self s =
    mkRes (Raise (OSError p)) s
          [EvLog Debug ("Reproducing data file " +:+ dq +:+ p +:+ dq +:+
                        ". Removing the file...");
           EvRemove p].
Proof.
  intros p Hn.
  unfold reproduce_data_file, os_remove, cmd_run_command, Logger, bind; simpl.
  fold p. destruct (decide (p ∈ files (env s))) as [Hin|_]; [contradiction|].
  simpl. destruct s; reflexivity.
Qed.

(** *** The node: dependencies *)

(** Resolving the dependencies reads no state and changes none. *)
Lemma get_dependencies_from_pure inputs acc (s s' : State Repo) :
  get_dependencies_from C inputs acc s =
    mkRes (out (get_dependencies_from C inputs acc s')) s [].
Proof.
  revert acc. induction inputs as [|f rest IH]; intros acc; simpl.
  - reflexivity.
  - destruct (data_item C f); [apply IH | reflexivity | reflexivity].
Qed.

Lemma get_dependencies_pure (self : ReproChange) (s s' : State Repo) :
  get_dependencies C self s =
    mkRes (out (get_dependencies C self s')) s
          [EvPrintInputFiles (input_files (_state self))].
Proof.
  unfold get_dependencies, bind; simpl.
  rewrite (get_dependencies_from_pure _ _ s s').
  simpl. rewrite (get_dependencies_from_pure _ _ s' s'). simpl.
  destruct (out (get_dependencies_from C (input_files (_state self)) [] s'));
    reflexivity.
Qed.

Lemma get_dependencies_st (self : ReproChange) (s : State Repo) :
  st (get_dependencies C self s) = s.
Proof. rewrite (get_dependencies_pure self s s). reflexivity. Qed.

Lemma get_dependencies_evs (self : ReproChange) (s : State Repo) :
  evs (get_dependencies C self s) = [EvPrintInputFiles (input_files (_state self))].
Proof. rewrite (get_dependencies_pure self s s). reflexivity. Qed.

(** A dependency that does not resolve makes a [ReproError]. *)
Lemma get_dependencies_from_Raise inputs acc (s : State Repo) e :
  out (get_dependencies_from C inputs acc s) = Raise e -> is_ReproError e = true.
Proof.
  revert acc. induction inputs as [|f rest IH]; intros acc; simpl.
  - discriminate.
  - destruct (data_item C f); [apply IH | |]; simpl; intros [= <-]; reflexivity.
Qed.

Lemma get_dependencies_from_fuel inputs acc (s : State Repo) :
  out (get_dependencies_from C inputs acc s) <> OutOfFuel.
Proof.
  revert acc. induction inputs as [|f rest IH]; intros acc; simpl.
  - discriminate.
  - destruct (data_item C f); [apply IH | |]; simpl; discriminate.
Qed.

(** *** Loops over data items *)

Lemma item_results_cons fuel force d rest (s : State Repo) :
  item_results C fuel force (d :: rest) s =
    reproduce_item C fuel force d s ::
      (if returned (out (reproduce_item C fuel force d s))
       then item_results C fuel force rest (st (reproduce_item C fuel force d s))
       else []).
Proof. reflexivity. Qed.

(** The loop got through all the items exactly when the last result is a
    return. *)
Lemma all_returned_last_out fuel force items (s : State Repo) :
  all_returned (item_results C fuel force items s) =
    returned (last_out (item_results C fuel force items s)).
Proof.
  revert s. induction items as [|d rest IH]; intros s; [reflexivity |].
  rewrite item_results_cons.
  set (r := reproduce_item C fuel force d s).
  destruct (returned (out r)) eqn:E.
  - unfold all_returned, last_out in *. simpl. rewrite E. simpl.
    specialize (IH (st r)).
    destruct (item_results C fuel force rest (st r)) as [|r' rs'] eqn:Ers.
    + simpl. rewrite E. reflexivity.
    + rewrite IH. reflexivity.
  - unfold all_returned, last_out. simpl. rewrite E. reflexivity.
Qed.

(** No item is skipped: when all returned, there is one result per item. *)
Lemma all_returned_length fuel force items (s : State Repo) :
  all_returned (item_results C fuel force items s) = true ->
  length (item_results C fuel force items s) = length items.
Proof.
  revert s. induction items as [|d rest IH]; intros s; [reflexivity |].
  rewrite item_results_cons. unfold all_returned. simpl.
  destruct (returned (out (reproduce_item C fuel force d s))); simpl;
    [| discriminate].
  intros H. f_equal. apply IH, H.
Qed.

Lemma last_cons_default {A} (x : A) l d d' :
  List.last (x :: l) d = List.last (x :: l) d'.
Proof.
  revert x. induction l as [|y l IH]; intros x; [reflexivity |].
  change (List.last (y :: l) d = List.last (y :: l) d'). apply IH.
Qed.

Lemma last_state_cons (s : State Repo) r rs :
  last_state s (r :: rs) = last_state (st r) rs.
Proof.
  unfold last_state. destruct rs as [|r' rs]; [reflexivity |].
  change (List.last (map st (r' :: rs)) s = List.last (map st (r' :: rs)) (st r)).
  apply last_cons_default.
Qed.

(** The results of a list of items, split at one of them. *)
Lemma item_results_app fuel force before after (s : State Repo) :
  all_returned (item_results C fuel force before s) = true ->
  item_results C fuel force (before ++ after) s =
    item_results C fuel force before s ++
    item_results C fuel force after
      (last_state s (item_results C fuel force before s)).
Proof.
  revert s. induction before as [|d rest IH]; intros s; [reflexivity |].
  rewrite <- app_comm_cons, !item_results_cons. unfold all_returned. simpl.
  set (r := reproduce_item C fuel force d s).
  destruct (returned (out r)) eqn:E; simpl; [| discriminate].
  intros H. rewrite (IH _ H). f_equal. f_equal.
  rewrite last_state_cons. reflexivity.
Qed.

Lemma last_out_cons_returned (r : Res Repo bool) rs :
  returned (out r) = true ->
  returned (last_out (r :: rs)) = returned (last_out rs).
Proof.
  unfold last_out. simpl. destruct rs; simpl; [| reflexivity].
  intros ->. reflexivity.
Qed.

(** The loop of [reproduce] over the dependencies, in terms of what each
    dependency does. *)
Lemma reproduce_dependencies_spec n force items acc (s : State Repo) :
  let rs := item_results C n force items s in
  reproduce_dependencies C (reproduce C n) items force acc s =
    mkRes (match last_out rs with
           | Ret _ => Ret (acc || any_changed rs)
           | Raise e => Raise e
           | OutOfFuel => OutOfFuel
           end)
          (last_state s rs) (all_events rs).
Proof.
  revert acc s. induction items as [|d rest IH]; intros acc s.
  - simpl. rewrite orb_false_r. reflexivity.
  - cbv zeta. rewrite item_results_cons.
    change (reproduce_dependencies C (reproduce C n) (d :: rest) force acc s)
      with (bind (ReproChange_init C d)
              (fun change => bind (reproduce C n change force)
                 (fun b => reproduce_dependencies C (reproduce C n) rest force
                             (if b then true else acc))) s).
    rewrite <- (bind_assoc (ReproChange_init C d)
                  (fun change => reproduce C n change force)).
    change (bind (ReproChange_init C d) (fun change => reproduce C n change force))
      with (reproduce_item C n force d).
    set (r := reproduce_item C n force d s).
    unfold bind. fold r.
    destruct (out r) as [b|e|] eqn:E; simpl.
    + cbv zeta in IH. rewrite IH. rewrite last_state_cons.
      unfold all_events, any_changed, last_out. simpl.
      unfold reported_changed at 2. rewrite E.
      f_equal.
      destruct (item_results C n force rest (st r)) as [|r' rs'] eqn:Ers.
      * simpl. destruct b; simpl; rewrite ?orb_true_r, ?orb_false_r; reflexivity.
      * change (List.last (map out (r' :: rs')) (Ret false))
          with (last_out (r' :: rs')).
        change (List.last (out r :: map out (r' :: rs')) (Ret false))
          with (List.last (map out (r' :: rs')) (Ret false)).
        change (List.last (map out (r' :: rs')) (Ret false))
          with (last_out (r' :: rs')).
        destruct (last_out (r' :: rs')); try reflexivity.
        destruct b; simpl; rewrite ?orb_true_r; reflexivity.
    + unfold all_events, last_out, last_state. simpl. rewrite E, app_nil_r.
      reflexivity.
    + unfold all_events, last_out, last_state. simpl. rewrite E, app_nil_r.
      reflexivity.
Qed.

(** *** The node: [reproduce] *)

(** A node that is not reproducible: nothing happens. *)
Lemma reproduce_not_reproducible n (self : ReproChange) force (s : State Repo) :
  is_reproducible (_state self) = false ->
  reproduce C (S n) self force s =
    mkRes (Ret false) s
      [EvPrintReproduce (data_dvc (_data_item self));
       EvLog Debug ("Data file " +:+ dq +:+ data_relative (_data_item self) +:+
                    dq +:+ " is not reproducible")].
Proof.
  intros H. simpl. rewrite H. reflexivity.
Qed.

(** A dependency that does not resolve: the error leaves [reproduce] before
    any dependency is looked at. *)
Lemma reproduce_unresolved n (self : ReproChange) force (s : State Repo) e :
  is_reproducible (_state self) = true ->
  out (get_dependencies C self s) = Raise e ->
  reproduce C (S n) self force s =
    mkRes (Raise e) s
      [EvPrintReproduce (data_dvc (_data_item self));
       EvPrintInputFiles (input_files (_state self))].
Proof.
  intros H Hd. simpl. rewrite H. simpl.
  rewrite bind_emit, (bind_Raise _ _ _ e Hd).
  rewrite get_dependencies_st, get_dependencies_evs. reflexivity.
Qed.

(** What [reproduce] does once the dependencies are resolved. *)
Lemma reproduce_after_dependencies n (self : ReproChange) force (s : State Repo) deps :
  let rs := item_results C n force deps s in
  let s1 := last_state s rs in
  let path := data_relative (_data_item self) in
  let src := were_files_changed C path (code_dependencies (_state self)) (env s1) in
  let asked := EvWereFilesChanged path (code_dependencies (_state self)) src in
  bind (reproduce_dependencies C (reproduce C n) deps force false)
    (fun were_input_files_changed =>
       bind (git_were_files_changed C path (code_dependencies (_state self)))
         (fun was_source_code_changed =>
            if negb force && negb was_source_code_changed
               && negb were_input_files_changed
            then
              bind (Logger Debug ("Data file " +:+ dq +:+ path +:+ dq +:+
                                  " is up to date"))
                   (fun _ => ret false)
            else reproduce_data_file C self)) s =
    match last_out rs with
    | Ret _ =>
        if negb force && negb src && negb (any_changed rs)
        then mkRes (Ret false) s1
               (all_events rs ++
                [asked; EvLog Debug ("Data file " +:+ dq +:+ path +:+ dq +:+
                                     " is up to date")])
        else mkRes (out (reproduce_data_file C self s1))
                   (st (reproduce_data_file C self s1))
                   (all_events rs ++ asked :: evs (reproduce_data_file C self s1))
    | Raise e => mkRes (Raise e) s1 (all_events rs)
    | OutOfFuel => mkRes OutOfFuel s1 (all_events rs)
    end.
Proof.
  intros rs s1 path src asked.
  rewrite (bind_eq _ _ s _ (reproduce_dependencies_spec n force deps false s)).
  fold rs. cbn [out st evs]. fold s1.
  destruct (last_out rs) as [b|e|]; try reflexivity.
  cbn [orb].
  assert (Hg : git_were_files_changed C path (code_dependencies (_state self)) s1
               = mkRes (Ret src) s1 [asked]) by reflexivity.
  rewrite (bind_eq _ _ s1 _ Hg). cbn [out st evs].
  destruct (negb force && negb src && negb (any_changed rs)); reflexivity.
Qed.

(** A reproducible node whose dependencies resolve: the dependencies are
    reproduced one after the other, then git is asked, then the decision is
    taken. *)
Lemma reproduce_reproducible n (self : ReproChange) force (s : State Repo) deps :
  is_reproducible (_state self) = true ->
  out (get_dependencies C self s) = Ret deps ->
  let rs := item_results C n force deps s in
  let s1 := last_state s rs in
  let path := data_relative (_data_item self) in
  let src := were_files_changed C path (code_dependencies (_state self)) (env s1) in
  let asked := EvWereFilesChanged path (code_dependencies (_state self)) src in
  reproduce C (S n) self force s =
    match last_out rs with
    | Ret _ =>
        if negb force && negb src && negb (any_changed rs)
        then mkRes (Ret false) s1
               (prologue self ++ all_events rs ++
                [asked; EvLog Debug ("Data file " +:+ dq +:+ path +:+ dq +:+
                                     " is up to date")])
        else mkRes (out (reproduce_data_file C self s1))
                   (st (reproduce_data_file C self s1))
                   (prologue self ++ all_events rs ++
                    asked :: evs (reproduce_data_file C self s1))
    | Raise e => mkRes (Raise e) s1 (prologue self ++ all_events rs)
    | OutOfFuel => mkRes OutOfFuel s1 (prologue self ++ all_events rs)
    end.
Proof.
  intros H Hd rs s1 path src asked.
  assert (Hg : get_dependencies C self s =
               mkRes (Ret deps) s [EvPrintInputFiles (input_files (_state self))]).
  { rewrite (get_dependencies_pure self s s), Hd. reflexivity. }
  cbn [reproduce]. rewrite H. cbn [negb].
  rewrite bind_emit.
  rewrite (bind_eq _ _ s _ Hg). cbn [out st evs].
  rewrite bind_emit.
  rewrite (bind_eq _ _ s _ Hg). cbn [out st evs].
  rewrite (reproduce_after_dependencies n self force s deps).
  fold rs s1 path src asked.
  destruct (last_out rs) as [b|e|]; try reflexivity.
  destruct (negb force && negb src && negb (any_changed rs)); reflexivity.
Qed.

(** *** The driver: the loop over the targets *)

(** One round of the loop, in terms of what the target does. *)
Lemma repro_data_item_spec fuel d changed (s : State Repo) :
  let r := reproduce_item C fuel false d s in
  repro_data_item C fuel d changed s =
    mkRes (match out r with
           | Ret true => Ret (Some true)
           | Ret false => Ret (Some changed)
           | Raise (ReproError _) => Ret None
           | Raise e => Raise e
           | OutOfFuel => OutOfFuel
           end)
          (st r) (evs r ++ item_log d (out r)).
Proof.
  intros r. unfold repro_data_item, try_except_ReproError.
  rewrite <- (bind_assoc (ReproChange_init C d)
                (fun repro_change => reproduce C fuel repro_change false)).
  change (bind (ReproChange_init C d)
            (fun repro_change => reproduce C fuel repro_change false))
    with (reproduce_item C fuel false d).
  rewrite (bind_eq (reproduce_item C fuel false d) _ s r eq_refl).
  destruct (out r) as [[|]|[msg|f|msg]|] eqn:E; cbn [out st evs item_log];
    rewrite ?app_nil_r; reflexivity.
Qed.

Lemma last_out_cons (r : Res Repo bool) rs :
  last_out (r :: rs) = match rs with [] => out r | _ :: _ => last_out rs end.
Proof. destruct rs; reflexivity. Qed.

Lemma item_results_nil_inv fuel force items (s : State Repo) :
  item_results C fuel force items s = [] -> items = [].
Proof. destruct items; [reflexivity | discriminate]. Qed.

Lemma target_events_nil_r (items : list DataItem) :
  target_events items ([] : list (Res Repo bool)) = [].
Proof. destruct items; reflexivity. Qed.

(** The loop of [repro_data_items], in terms of what each target does. *)
Lemma repro_data_items_loop_spec fuel items changed (s : State Repo) :
  let rs := item_results C fuel false items s in
  repro_data_items_loop C fuel items changed s =
    mkRes (match last_out rs with
           | Ret _ => Ret (false, changed || any_changed rs)
           | Raise (ReproError _) => Ret (true, changed || any_changed rs)
           | Raise e => Raise e
           | OutOfFuel => OutOfFuel
           end)
          (last_state s rs) (target_events items rs).
Proof.
  revert changed s. induction items as [|d rest IH]; intros changed s.
  - simpl. rewrite orb_false_r. reflexivity.
  - cbv zeta. rewrite item_results_cons.
    set (r := reproduce_item C fuel false d s).
    cbn [repro_data_items_loop].
    rewrite (bind_eq _ _ s _ (repro_data_item_spec fuel d changed s)).
    fold r. cbn [out st evs].
    destruct (out r) as [b|e|] eqn:E; cbn [returned].
    + assert (Hloop :
        forall changed',
          changed' = (if b then true else changed) ->
          repro_data_items_loop C fuel rest changed' (st r) =
          mkRes (match last_out (r :: item_results C fuel false rest (st r)) with
                 | Ret _ => Ret (false, changed ||
                     any_changed (r :: item_results C fuel false rest (st r)))
                 | Raise (ReproError _) => Ret (true, changed ||
                     any_changed (r :: item_results C fuel false rest (st r)))
                 | Raise e => Raise e
                 | OutOfFuel => OutOfFuel
                 end)
                (last_state s (r :: item_results C fuel false rest (st r)))
                (target_events rest (item_results C fuel false rest (st r)))).
      { intros changed' ->. cbv zeta in IH. rewrite IH.
        rewrite last_state_cons, last_out_cons.
        unfold any_changed at 3 4. cbn [existsb].
        unfold reported_changed at 1 3. rewrite E.
        fold (any_changed (item_results C fuel false rest (st r))).
        assert (Hb : (if b then true else changed) ||
                       any_changed (item_results C fuel false rest (st r)) =
                     changed || ((if b then true else false) ||
                       any_changed (item_results C fuel false rest (st r)))).
        { destruct b, changed; reflexivity. }
        rewrite Hb.
        destruct (item_results C fuel false rest (st r)) as [|r' rs'] eqn:Ers.
        - reflexivity.
        - reflexivity. }
      destruct b; cbn [out st evs];
        rewrite (Hloop _ eq_refl); cbn [out st evs target_events item_log];
        rewrite E; cbn [item_log]; rewrite <- app_assoc; reflexivity.
    + unfold last_out, last_state, any_changed. cbn [map List.last existsb].
      unfold reported_changed. rewrite E. cbn [target_events].
      rewrite E, !orb_false_r, target_events_nil_r.
      destruct e; cbn [out st evs item_log ret]; rewrite ?app_nil_r; reflexivity.
    + unfold last_out, last_state, any_changed. cbn [map List.last existsb].
      unfold reported_changed. rewrite E. cbn [target_events].
      rewrite E, target_events_nil_r. cbn [item_log]. rewrite ?app_nil_r.
      reflexivity.
Qed.

(** [repro_data_items], in terms of what each target does. *)
Lemma repro_data_items_spec fuel items (s : State Repo) :
  let rs := item_results C fuel false items s in
  repro_data_items C fuel items s =
    mkRes (match last_out rs with
           | Ret _ => Ret (any_changed rs)
           | Raise (ReproError _) => Ret false
           | Raise e => Raise e
           | OutOfFuel => OutOfFuel
           end)
          (last_state s rs)
          (target_events items rs ++
           match last_out rs with
           | Raise (ReproError _) => errors_occurred C
           | _ => []
           end).
Proof.
  intros rs. unfold repro_data_items.
  rewrite (bind_eq _ _ s _ (repro_data_items_loop_spec fuel items false s)).
  fold rs. cbn [out st evs orb].
  destruct (last_out rs) as [b|[msg|f|msg]|]; cbn [out st evs fst snd andb negb];
    rewrite ?app_nil_r; try reflexivity.
  - rewrite bind_ret, andb_true_r. reflexivity.
  - unfold errors_occurred. destruct (skip_git_actions C); cbn [negb].
    + rewrite andb_false_r, ?app_nil_r. reflexivity.
    + rewrite andb_false_r. reflexivity.
Qed.

(** *** The driver: [run] *)

(** The [try] block of [run]. *)
Lemma run_body_spec fuel target (s : State Repo) :
  run_body C fuel target s =
    if negb (skip_git_actions C) && negb (is_ready_to_go C (env s))
    then mkRes (Ret 1%Z) s [EvIsReadyToGo]
    else
      match to_data_items_from C target [] [] with
      | inl ex => mkRes (Raise ex) s (readiness_check C ++ [EvToDataItems target])
      | inr (items, []) =>
          let r := repro_data_items C fuel items s in
          mkRes (match out r with
                 | Ret true => Ret 0%Z
                 | Ret false => Ret 1%Z
                 | Raise e => Raise e
                 | OutOfFuel => OutOfFuel
                 end)
                (st r)
                (readiness_check C ++ EvToDataItems target :: evs r ++
                 match out r with
                 | Ret true => [EvCommit ("DVC repro: " +:+ join " " target)]
                 | _ => []
                 end)
      | inr (items, f :: external) =>
          mkRes (Ret 1%Z) s
            (readiness_check C ++
             [EvToDataItems target;
              EvLog Error (external_files_message C (f :: external))])
      end.
Proof.
  unfold run_body, readiness_check.
  assert (Hbody :
    bind (to_data_items C target)
      (fun r =>
         match snd r with
         | _ :: _ =>
             bind (Logger Error (external_files_message C (snd r)))
                  (fun _ => ret 1%Z)
         | [] =>
             bind (repro_data_items C fuel (fst r))
               (fun ok : bool =>
                  if ok
                  then commit_if_needed ("DVC repro: " +:+ join " " target)
                  else ret 1%Z)
         end) s =
    match to_data_items_from C target [] [] with
    | inl ex => mkRes (Raise ex) s [EvToDataItems target]
    | inr (items, []) =>
        let r := repro_data_items C fuel items s in
        mkRes (match out r with
               | Ret true => Ret 0%Z
               | Ret false => Ret 1%Z
               | Raise e => Raise e
               | OutOfFuel => OutOfFuel
               end)
              (st r)
              (EvToDataItems target :: evs r ++
               match out r with
               | Ret true => [EvCommit ("DVC repro: " +:+ join " " target)]
               | _ => []
               end)
    | inr (items, f :: external) =>
        mkRes (Ret 1%Z) s
          [EvToDataItems target;
           EvLog Error (external_files_message C (f :: external))]
    end).
  { unfold to_data_items. rewrite bind_assoc. rewrite bind_emit.
    destruct (to_data_items_from C target [] []) as [ex|[items [|f external]]];
      cbn [out st evs fst snd]; try reflexivity.
    rewrite bind_ret. cbn [fst snd].
    unfold bind.
    destruct (out (repro_data_items C fuel items s)) as [[|]|e|];
      cbn [out st evs]; rewrite ?app_nil_r; reflexivity. }
  destruct (skip_git_actions C); cbn [negb andb].
  - rewrite bind_ret. cbn [app].
    unfold external_files_message in Hbody. rewrite Hbody.
    destruct (to_data_items_from C target [] []) as [ex|[items [|f external]]];
      reflexivity.
  - assert (Hready :
      bind (git_is_ready_to_go C) (fun ready => ret (negb ready)) s =
      mkRes (Ret (negb (is_ready_to_go C (env s)))) s [EvIsReadyToGo])
      by reflexivity.
    rewrite (bind_eq _ _ s _ Hready). cbn [out st evs].
    destruct (is_ready_to_go C (env s)); cbn [negb out st evs].
    + unfold external_files_message in Hbody. rewrite Hbody.
      destruct (to_data_items_from C target [] []) as [ex|[items [|f external]]];
        reflexivity.
    + reflexivity.
Qed.

(** [run]: the lock around the [try] block. *)
Lemma run_spec fuel target (s : State Repo) :
  let b := run_body C fuel target s in
  run C fuel target s =
    if lock_acquire C (lock_file C) 5 (env s)
    then
      match out b with
      | OutOfFuel =>
          mkRes OutOfFuel (st b) (EvLockAcquire (lock_file C) 5 true :: evs b)
      | o =>
          mkRes o (st b)
            (EvLockAcquire (lock_file C) 5 true :: evs b ++ [EvLockRelease])
      end
    else
      mkRes (Ret 1%Z) s
        [EvLockAcquire (lock_file C) 5 false;
         EvPrinting "Cannot perform the cmd since DVC is busy and locked. Please retry the cmd later."].
Proof.
  intros b. unfold run.
  assert (Hlock :
    lock_acquire_call C (lock_file C) 5 s =
    mkRes (Ret (lock_acquire C (lock_file C) 5 (env s))) s
      [EvLockAcquire (lock_file C) 5 (lock_acquire C (lock_file C) 5 (env s))])
    by reflexivity.
  rewrite (bind_eq _ _ s _ Hlock). cbn [out st evs].
  destruct (lock_acquire C (lock_file C) 5 (env s)); cbn [negb].
  - unfold try_finally, lock_release. fold b.
    destruct (out b) eqn:E; cbn [out st evs app]; rewrite ?E; reflexivity.
  - reflexivity.
Qed.

(** *** Which events come from where *)

(** The events of a node do not include those of the driver. *)
Lemma ReproChange_init_events d (s : State Repo) :
  List.Forall (fun e => node_event e = true) (evs (ReproChange_init C d s)).
Proof.
  rewrite ReproChange_init_spec. repeat constructor.
Qed.

Lemma reproduce_data_file_events (self : ReproChange) (s : State Repo) :
  List.Forall (fun e => node_event e = true) (evs (reproduce_data_file C self s)).
Proof.
  destruct (decide (data_relative (_data_item self) ∈ files (env s))) as [Hin|Hn].
  - rewrite (reproduce_data_file_present self s Hin). repeat constructor.
  - rewrite (reproduce_data_file_absent self s Hn). repeat constructor.
Qed.

Lemma item_results_events n force items (s : State Repo) :
  (forall self force s,
      List.Forall (fun e => node_event e = true) (evs (reproduce C n self force s))) ->
  List.Forall (fun e => node_event e = true)
    (all_events (item_results C n force items s)).
Proof.
  intros Hrec. revert s. induction items as [|d rest IH]; intros s.
  - constructor.
  - rewrite item_results_cons. unfold all_events. cbn [map concat].
    apply Forall_app. split.
    + unfold reproduce_item, bind.
      pose proof (ReproChange_init_events d s) as Hi.
      destruct (out (ReproChange_init C d s)); cbn [evs]; try exact Hi.
      apply Forall_app. split; [exact Hi | apply Hrec].
    + destruct (returned (out (reproduce_item C n force d s))).
      * apply IH.
      * constructor.
Qed.

Lemma reproduce_events n (self : ReproChange) force (s : State Repo) :
  List.Forall (fun e => node_event e = true) (evs (reproduce C n self force s)).
Proof.
  revert self force s. induction n as [|n IH]; intros self force s.
  - constructor.
  - destruct (is_reproducible (_state self)) eqn:Hr.
    + destruct (out (get_dependencies C self s)) as [deps|e|] eqn:Hd.
      * rewrite (reproduce_reproducible n self force s deps Hr Hd).
        pose proof (item_results_events n force deps s IH) as Hk.
        assert (Hp : List.Forall (fun e => node_event e = true) (prologue self))
          by (repeat constructor).
        destruct (last_out (item_results C n force deps s)); cbn [evs].
        -- destruct (negb force && _ && _); cbn [evs];
             repeat (apply Forall_app; split); try assumption.
           ++ repeat constructor.
           ++ constructor; [reflexivity | apply reproduce_data_file_events].
        -- apply Forall_app; split; assumption.
        -- apply Forall_app; split; assumption.
      * rewrite (reproduce_unresolved n self force s e Hr Hd). repeat constructor.
      * exfalso. unfold get_dependencies in Hd. rewrite bind_emit in Hd.
        cbn [out] in Hd. exact (get_dependencies_from_fuel _ _ _ Hd).
    + rewrite (reproduce_not_reproducible n self force s Hr). repeat constructor.
Qed.

Lemma reproduce_item_events n force d (s : State Repo) :
  List.Forall (fun e => node_event e = true) (evs (reproduce_item C n force d s)).
Proof.
  pose proof (item_results_events n force [d] s (reproduce_events n)) as H.
  rewrite item_results_cons in H. unfold all_events in H. cbn [map concat] in H.
  apply Forall_app in H. apply H.
Qed.

(** Counting among the events of a node. *)
Lemma node_events_count p (l : list Event) :
  (forall e, node_event e = true -> p e = false) ->
  List.Forall (fun e => node_event e = true) l ->
  count p l = 0%nat.
Proof.
  intros Hp Hl. apply count_zero_Forall.
  induction Hl; constructor; auto.
Qed.


(** *** Where a loop stops *)

Lemma last_out_app_single (rs : list (Res Repo bool)) r :
  last_out (rs ++ [r]) = out r.
Proof.
  unfold last_out. rewrite map_app. cbn [map]. apply last_last.
Qed.

Lemma last_state_app_single (s : State Repo) rs r :
  last_state s (rs ++ [r]) = st r.
Proof.
  unfold last_state. rewrite map_app. cbn [map]. apply last_last.
Qed.

Lemma all_events_app (rs1 rs2 : list (Res Repo bool)) :
  all_events (rs1 ++ rs2) = all_events rs1 ++ all_events rs2.
Proof. unfold all_events. rewrite map_app, concat_app. reflexivity. Qed.

Lemma any_changed_app (rs1 rs2 : list (Res Repo bool)) :
  any_changed (rs1 ++ rs2) = any_changed rs1 || any_changed rs2.
Proof. unfold any_changed. apply existsb_app. Qed.

(** An item that does not return is the last one the loop gets to. *)
Lemma item_results_stop_at fuel force before d after (s : State Repo) :
  let rs := item_results C fuel force before s in
  let r := reproduce_item C fuel force d (last_state s rs) in
  all_returned rs = true ->
  returned (out r) = false ->
  item_results C fuel force (before ++ d :: after) s = rs ++ [r].
Proof.
  intros rs r Hall Hr.
  rewrite (item_results_app fuel force before (d :: after) s Hall).
  fold rs. rewrite item_results_cons. fold r. rewrite Hr. reflexivity.
Qed.

(** A loop that did not get through stopped at some item. *)
Lemma item_results_stop fuel force items (s : State Repo) :
  all_returned (item_results C fuel force items s) = false ->
  exists before d after,
    items = before ++ d :: after /\
    all_returned (item_results C fuel force before s) = true /\
    returned (out (reproduce_item C fuel force d
                     (last_state s (item_results C fuel force before s)))) = false.
Proof.
  revert s. induction items as [|d rest IH]; intros s; [discriminate |].
  rewrite item_results_cons. unfold all_returned. cbn [forallb].
  destruct (returned (out (reproduce_item C fuel force d s))) eqn:E.
  - cbn [andb]. intros H. destruct (IH _ H) as (before & d' & after & -> & Hb & Hd).
    exists (d :: before), d', after. split; [reflexivity |].
    rewrite item_results_cons, E, last_state_cons.
    split; [| exact Hd].
    unfold all_returned. cbn [forallb]. rewrite E. exact Hb.
  - intros _. exists [], d, rest. repeat split. exact E.
Qed.

(** *** The targets the path factory sorts *)

Lemma to_data_items_from_spec targets result external :
  forallb (fun t => negb (resolve_fails C t)) targets = true ->
  to_data_items_from C targets result external =
    inr (result ++ resolved C targets,
         external ++ List.filter (is_external C) targets).
Proof.
  revert result external.
  induction targets as [|t rest IH]; intros result external H.
  - cbn. rewrite !app_nil_r. reflexivity.
  - cbn [forallb] in H. apply andb_prop in H. destruct H as [Ht Hrest].
    unfold resolve_fails in Ht. unfold resolved, is_external.
    cbn [to_data_items_from].
    destruct (data_item C t) as [d| |ex] eqn:E; [| | discriminate].
    + rewrite (IH _ _ Hrest). unfold resolved, is_external.
      cbn. rewrite E. rewrite <- app_assoc. reflexivity.
    + rewrite (IH _ _ Hrest). unfold resolved, is_external.
      cbn. rewrite E. rewrite <- app_assoc. reflexivity.
Qed.

(** The factory's first failure is what [to_data_items] raises. *)
Lemma to_data_items_from_fails targets result external :
  forallb (fun t => negb (resolve_fails C t)) targets = false ->
  exists ex, to_data_items_from C targets result external = inl (OtherError ex).
Proof.
  revert result external.
  induction targets as [|t rest IH]; intros result external H; [discriminate |].
  cbn [forallb] in H. unfold resolve_fails in H at 1.
  cbn [to_data_items_from].
  destruct (data_item C t) as [d| |ex]; cbn [negb andb] in H.
  - apply IH, H.
  - apply IH, H.
  - exists ex. reflexivity.
Qed.


(** *** What the driver adds to the events of the nodes *)

Lemma item_log_count p d (o : outcome bool) :
  (forall l m, p (EvLog l m) = false) -> count p (item_log d o) = 0%nat.
Proof.
  intros H. destruct o as [[|]|[m|f|m]|]; cbn [item_log];
    rewrite ?count_cons, ?H, ?count_nil; reflexivity.
Qed.

Lemma node_event_not_error_log e : node_event e = true -> is_error_log e = false.
Proof. destruct e as [| | | | | | | | | |[| |] m| | | |]; cbn; congruence. Qed.

(** Neither the nodes nor the lines logged per target are of a kind that
    only the rest of the driver produces. *)
Lemma target_events_count p fuel items (s : State Repo) :
  (forall e, node_event e = true -> p e = false) ->
  (forall l m, p (EvLog l m) = false) ->
  count p (target_events items (item_results C fuel false items s)) = 0%nat.
Proof.
  intros Hn Hl. revert s. induction items as [|d rest IH]; intros s.
  - reflexivity.
  - rewrite item_results_cons. cbn [target_events]. rewrite !count_app.
    rewrite (node_events_count p _ Hn (reproduce_item_events fuel false d s)).
    rewrite (item_log_count p d _ Hl).
    destruct (returned (out (reproduce_item C fuel false d s))).
    + apply IH.
    + rewrite target_events_nil_r. reflexivity.
Qed.

(** An error is logged about a target exactly when it raised a
    [ReproError], and then it is the last target the loop got to. *)
Lemma target_events_error_log fuel items (s : State Repo) :
  count is_error_log (target_events items (item_results C fuel false items s)) =
    match last_out (item_results C fuel false items s) with
    | Raise (ReproError _) => 1%nat
    | _ => 0%nat
    end.
Proof.
  revert s. induction items as [|d rest IH]; intros s.
  - reflexivity.
  - rewrite item_results_cons. cbn [target_events]. rewrite !count_app.
    rewrite (node_events_count is_error_log _ node_event_not_error_log
               (reproduce_item_events fuel false d s)).
    rewrite last_out_cons.
    set (r := reproduce_item C fuel false d s).
    destruct (out r) as [b|e|] eqn:E; cbn [returned].
    + rewrite IH.
      destruct (item_results C fuel false rest (st r)) as [|r' rs'] eqn:Ers.
      * destruct b; reflexivity.
      * destruct b; reflexivity.
    + rewrite target_events_nil_r. destruct e; reflexivity.
    + rewrite target_events_nil_r. reflexivity.
Qed.

Lemma target_events_app (before rest : list DataItem) (rs rs' : list (Res Repo bool)) :
  length rs = length before ->
  target_events (before ++ rest) (rs ++ rs') =
    target_events before rs ++ target_events rest rs'.
Proof.
  revert rs. induction before as [|d before IH]; intros [|r rs] H;
    try discriminate.
  - reflexivity.
  - cbn [app target_events]. injection H as H. rewrite (IH _ H).
    rewrite <- !app_assoc. reflexivity.
Qed.

(** [run] once the lock is held, the repository is ready and every target
    is a data item. *)
Lemma run_resolved fuel target items (s : State Repo) :
  lock_acquire C (lock_file C) 5 (env s) = true ->
  skip_git_actions C = true \/ is_ready_to_go C (env s) = true ->
  to_data_items_from C target [] [] = inr (items, []) ->
  let r := repro_data_items C fuel items s in
  run C fuel target s =
    mkRes (match out r with
           | Ret true => Ret 0%Z
           | Ret false => Ret 1%Z
           | Raise e => Raise e
           | OutOfFuel => OutOfFuel
           end)
          (st r)
          (EvLockAcquire (lock_file C) 5 true ::
           readiness_check C ++ EvToDataItems target :: evs r ++
           match out r with
           | Ret true => [EvCommit ("DVC repro: " +:+ join " " target); EvLockRelease]
           | OutOfFuel => []
           | _ => [EvLockRelease]
           end).
Proof.
  intros Hlock Hready Hitems r.
  rewrite run_spec. cbv zeta. rewrite Hlock, run_body_spec, Hitems.
  assert (Hgo : negb (skip_git_actions C) && negb (is_ready_to_go C (env s)) = false).
  { destruct Hready as [-> | ->]; [reflexivity | apply andb_false_r]. }
  rewrite Hgo. cbv zeta. fold r. cbn [out st evs].
  destruct (out r) as [[|]|e|]; cbn [out st evs];
    rewrite <- ?app_assoc; cbn [app]; rewrite <- ?app_assoc; cbn [app];
    rewrite ?app_nil_r; reflexivity.
Qed.


Lemma readiness_check_count p :
  p EvIsReadyToGo = false -> count p (readiness_check C) = 0%nat.
Proof.
  intros H. unfold readiness_check. destruct (skip_git_actions C);
    rewrite ?count_cons, ?H; reflexivity.
Qed.

Lemma errors_occurred_count p :
  (forall l m, p (EvLog l m) = false) -> p EvNotCommittedWarning = false ->
  count p (errors_occurred C) = 0%nat.
Proof.
  intros Hl Hw. unfold errors_occurred. destruct (skip_git_actions C);
    rewrite ?count_cons, ?Hl, ?Hw; reflexivity.
Qed.

(** Events of a kind that [repro_data_items] does not produce. *)
Lemma repro_data_items_count p fuel items (s : State Repo) :
  (forall e, node_event e = true -> p e = false) ->
  (forall l m, p (EvLog l m) = false) ->
  p EvNotCommittedWarning = false ->
  count p (evs (repro_data_items C fuel items s)) = 0%nat.
Proof.
  intros Hn Hl Hw. rewrite repro_data_items_spec. cbn [evs].
  rewrite count_app, (target_events_count p fuel items s Hn Hl).
  destruct (last_out (item_results C fuel false items s)) as [b|[m|f|m]|];
    try reflexivity.
  apply (errors_occurred_count p Hl Hw).
Qed.


Lemma existsb_filter_cons {A} (p : A -> bool) (l : list A) :
  existsb p l = true -> exists x rest, List.filter p l = x :: rest.
Proof.
  induction l as [|a l IH]; [discriminate |].
  cbn [existsb List.filter]. destruct (p a); [eauto | exact IH].
Qed.

(** *** The claims about the driver *)


(** Claim C3: with the lock held, the repository ready (or git actions
    skipped) and every target resolved to a data item, [run] returns 0 and
    commits exactly once if and only if some target reported that it was
    reproduced and every target returned; the commit names the targets.
    When every target returned and none was reproduced, [run] returns 1
    and commits nothing; when a target did not return, [run] does not
    return 0 and commits nothing. *)
Theorem run_commits_iff_changed fuel target items (s : State Repo) :
  lock_acquire C (lock_file C) 5 (env s) = true ->
  skip_git_actions C = true \/ is_ready_to_go C (env s) = true ->
  to_data_items_from C target [] [] = inr (items, []) ->
  let rs := item_results C fuel false items s in
  let r := run C fuel target s in
  ((out r = Ret 0%Z /\ count is_commit (evs r) = 1%nat) <->
   (any_changed rs = true /\ all_returned rs = true)) /\
  (any_changed rs = true -> all_returned rs = true ->
   In (EvCommit ("DVC repro: " +:+ join " " target)) (evs r)) /\
  (any_changed rs = false -> all_returned rs = true ->
   out r = Ret 1%Z /\ count is_commit (evs r) = 0%nat) /\
  (all_returned rs = false ->
   out r <> Ret 0%Z /\ count is_commit (evs r) = 0%nat).
Proof.
  intros Hlock Hready Hitems rs r. subst r.
  rewrite (run_resolved fuel target items s Hlock Hready Hitems). cbv zeta.
  assert (Hc : count is_commit (evs (repro_data_items C fuel items s)) = 0%nat).
  { apply repro_data_items_count; try reflexivity.
    intros e He. destruct e; try reflexivity; discriminate. }
  assert (Hrc : count is_commit (readiness_check C) = 0%nat)
    by (apply readiness_check_count; reflexivity).
  assert (Ho : out (repro_data_items C fuel items s) =
               match last_out rs with
               | Ret _ => Ret (any_changed rs)
               | Raise (ReproError _) => Ret false
               | Raise e => Raise e
               | OutOfFuel => OutOfFuel
               end)
    by (rewrite repro_data_items_spec; reflexivity).
  assert (Hall : all_returned rs = returned (last_out rs))
    by apply all_returned_last_out.
  rewrite !Hall. cbn [out evs]. rewrite Ho.
  rewrite count_cons, count_app, Hrc, count_cons, count_app, Hc.
  cbn [is_commit].
  destruct (last_out rs) as [b|[m|f|m]|]; cbn [returned];
    try (destruct (any_changed rs));
    rewrite ?count_cons, ?count_nil; cbn [is_commit];
    repeat split; try discriminate; try congruence;
    try (intros [? ?]; congruence); try (intros; lia).
  intros _ _. right. apply in_or_app. right. right. apply in_or_app. right.
  left. reflexivity.
Qed.

(** Claim C6: with the lock held and the repository ready, when some target
    lies outside of the data directory (and the path factory fails on none)
    [run] returns 1 after it has logged one error, which contains every
    target that lies outside; it then releases the lock.  No state file is
    loaded, no node does anything, and nothing is committed. *)
Theorem run_external_targets fuel target (s : State Repo) :
  lock_acquire C (lock_file C) 5 (env s) = true ->
  skip_git_actions C = true \/ is_ready_to_go C (env s) = true ->
  forallb (fun t => negb (resolve_fails C t)) target = true ->
  existsb (is_external C) target = true ->
  let external := List.filter (is_external C) target in
  let r := run C fuel target s in
  r = mkRes (Ret 1%Z) s
        (EvLockAcquire (lock_file C) 5 true :: readiness_check C ++
         [EvToDataItems target;
          EvLog Error (external_files_message C external);
          EvLockRelease]) /\
  (forall t, In t target -> is_external C t = true ->
             contains t (external_files_message C external)) /\
  List.Forall (fun e => node_event e = false) (evs r) /\
  count is_commit (evs r) = 0%nat.
Proof.
  intros Hlock Hready Hres Hext external r.
  assert (Hr : r = mkRes (Ret 1%Z) s
        (EvLockAcquire (lock_file C) 5 true :: readiness_check C ++
         [EvToDataItems target;
          EvLog Error (external_files_message C external);
          EvLockRelease])).
  { subst r. rewrite run_spec. cbv zeta. rewrite Hlock, run_body_spec.
    assert (Hgo : negb (skip_git_actions C) && negb (is_ready_to_go C (env s)) = false).
    { destruct Hready as [-> | ->]; [reflexivity | apply andb_false_r]. }
    rewrite Hgo, (to_data_items_from_spec target [] [] Hres). cbn [app].
    fold external.
    destruct (existsb_filter_cons _ _ Hext) as (x & rest & Hx).
    fold external in Hx. rewrite Hx. cbn [out st evs].
    rewrite <- app_assoc. reflexivity. }
  split; [exact Hr |]. split; [| rewrite Hr; cbn [evs]; split].
  - intros t Hin Ht. unfold external_files_message.
    do 5 apply contains_append_r. apply contains_join.
    apply filter_In. split; assumption.
  - constructor; [reflexivity |]. apply Forall_app. split.
    + unfold readiness_check. destruct (skip_git_actions C); repeat constructor.
    + repeat constructor.
  - rewrite count_cons, count_app, readiness_check_count by reflexivity.
    reflexivity.
Qed.


(** [repro_data_items] on a list of targets one of which does not return. *)
Lemma repro_data_items_stopped fuel before d after (s : State Repo) :
  let rs := item_results C fuel false before s in
  let rd := reproduce_item C fuel false d (last_state s rs) in
  all_returned rs = true ->
  returned (out rd) = false ->
  repro_data_items C fuel (before ++ d :: after) s =
    mkRes (match out rd with
           | Raise (ReproError _) => Ret false
           | o => o
           end)
          (st rd)
          (target_events before rs ++ evs rd ++ item_log d (out rd) ++
           match out rd with
           | Raise (ReproError _) => errors_occurred C
           | _ => []
           end).
Proof.
  intros rs rd Hall Hrd.
  rewrite repro_data_items_spec. cbv zeta.
  rewrite (item_results_stop_at fuel false before d after s Hall Hrd).
  fold rs rd.
  rewrite last_out_app_single, last_state_app_single.
  rewrite (target_events_app before (d :: after) rs [rd]
             (all_returned_length fuel false before s Hall)).
  cbn [target_events]. rewrite target_events_nil_r, app_nil_r.
  rewrite <- !app_assoc.
  destruct (out rd) as [b|[m|f|m]|]; try discriminate; reflexivity.
Qed.

(** *** The claims about errors *)

(** Claim C4: when the state file of a data item has no command, an empty
    one, or one of fewer than two words, constructing the node raises a
    [ReproError] whose message contains the path of the state file; whether
    the data item is reproducible plays no part.  Nothing of the node runs,
    the error leaves a parent that depends on the item, and a run over
    several targets stops at the item: the targets after it are not
    attempted and [repro_data_items] returns [False]. *)
Theorem malformed_state_raises d (s : State Repo) :
  let state := load C (state_relative d) (env s) in
  norm_argv state = None \/
  (exists argv, norm_argv state = Some argv /\ (length argv < 2)%nat) ->
  exists msg,
    let raised A : Res Repo A :=
      mkRes (Raise (ReproError msg))
            (mkState (env s) (code_dependencies state))
            [EvLoad (state_relative d) state] in
    ReproChange_init C d s = raised ReproChange /\
    match norm_argv state with
    | Some [_] => contains (file state) msg
    | _ => contains (state_relative d) msg
    end /\
    (forall fuel force, reproduce_item C fuel force d s = raised bool) /\
    (forall n parent force s0 before after,
        is_reproducible (_state parent) = true ->
        out (get_dependencies C parent s0) = Ret (before ++ d :: after) ->
        all_returned (item_results C n force before s0) = true ->
        last_state s0 (item_results C n force before s0) = s ->
        out (reproduce C (S n) parent force s0) = Raise (ReproError msg)) /\
    (forall fuel before after s0,
        all_returned (item_results C fuel false before s0) = true ->
        last_state s0 (item_results C fuel false before s0) = s ->
        item_results C fuel false (before ++ d :: after) s0 =
          item_results C fuel false before s0 ++ [raised bool] /\
        out (repro_data_items C fuel (before ++ d :: after) s0) = Ret false /\
        repro_data_items C fuel (before ++ d :: after) s0 =
          repro_data_items C fuel (before ++ [d]) s0).
Proof.
  intros state Hbad.
  assert (Hinit : exists msg,
    ReproChange_init C d s =
      mkRes (Raise (ReproError msg)) (mkState (env s) (code_dependencies state))
            [EvLoad (state_relative d) state] /\
    match norm_argv state with
    | Some [_] => contains (file state) msg
    | _ => contains (state_relative d) msg
    end).
  { rewrite ReproChange_init_spec. cbv zeta. fold state.
    destruct (norm_argv state) as [[|a [|a' argv]]|] eqn:E.
    - eexists. split; [reflexivity |].
      do 5 apply contains_append_r. apply contains_append_l, contains_refl.
    - eexists. split; [reflexivity |].
      do 3 apply contains_append_r. apply contains_append_l, contains_refl.
    - exfalso. destruct Hbad as [Hn | (argv0 & Ha & Hlen)]; [discriminate |].
      injection Ha as <-. cbn [length] in Hlen. lia.
    - eexists. split; [reflexivity |].
      do 5 apply contains_append_r. apply contains_append_l, contains_refl. }
  destruct Hinit as (msg & Hinit & Hmsg). exists msg. cbv zeta.
  assert (Hitem : forall fuel force,
    reproduce_item C fuel force d s =
      mkRes (Raise (ReproError msg)) (mkState (env s) (code_dependencies state))
            [EvLoad (state_relative d) state]).
  { intros fuel force. unfold reproduce_item.
    rewrite (bind_eq _ _ s _ Hinit). reflexivity. }
  split; [exact Hinit |]. split; [exact Hmsg |]. split; [exact Hitem |]. split.
  - intros n parent force s0 before after Hr Hd Hall Hs.
    rewrite (reproduce_reproducible n parent force s0 _ Hr Hd). cbv zeta.
    assert (Hrd : returned (out (reproduce_item C n force d
                    (last_state s0 (item_results C n force before s0)))) = false)
      by (rewrite Hs, Hitem; reflexivity).
    rewrite (item_results_stop_at n force before d after s0 Hall Hrd).
    rewrite last_out_app_single, Hs, Hitem. reflexivity.
  - intros fuel before after s0 Hall Hs.
    assert (Hrd : returned (out (reproduce_item C fuel false d
                    (last_state s0 (item_results C fuel false before s0)))) = false)
      by (rewrite Hs, Hitem; reflexivity).
    split; [| split].
    + rewrite (item_results_stop_at fuel false before d after s0 Hall Hrd).
      rewrite Hs, Hitem. reflexivity.
    + rewrite (repro_data_items_stopped fuel before d after s0 Hall Hrd).
      rewrite Hs, Hitem. reflexivity.
    + rewrite (repro_data_items_stopped fuel before d after s0 Hall Hrd).
      rewrite (repro_data_items_stopped fuel before d [] s0 Hall Hrd).
      reflexivity.
Qed.

(** Claim C7 (amended): when a target raises a [ReproError], the targets
    before it having returned, [repro_data_items] logs the error with the
    target's path and the message, attempts no target after it and returns
    [False]; [run] then returns 1, commits nothing and releases the lock.
    The line that errors occurred and the warning about changes that are
    not committed follow only when git actions are not skipped; with
    [skip_git_actions] set, neither is produced. *)
Theorem repro_error_stops_the_run fuel before d after msg (s : State Repo) :
  let items := before ++ d :: after in
  let rs := item_results C fuel false before s in
  let rd := reproduce_item C fuel false d (last_state s rs) in
  let r := repro_data_items C fuel items s in
  all_returned rs = true ->
  out rd = Raise (ReproError msg) ->
  r = mkRes (Ret false) (st rd)
        (target_events before rs ++ evs rd ++
         [EvLog Error ("Error in reproducing data file " +:+ data_relative d +:+
                       ": " +:+ msg)] ++
         errors_occurred C) /\
  item_results C fuel false items s = rs ++ [rd] /\
  count is_warning (evs r) = (if skip_git_actions C then 0 else 1)%nat /\
  count is_error_log (evs r) = (if skip_git_actions C then 1 else 2)%nat /\
  (forall target,
      lock_acquire C (lock_file C) 5 (env s) = true ->
      skip_git_actions C = true \/ is_ready_to_go C (env s) = true ->
      to_data_items_from C target [] [] = inr (items, []) ->
      out (run C fuel target s) = Ret 1%Z /\
      count is_commit (evs (run C fuel target s)) = 0%nat /\
      count is_release (evs (run C fuel target s)) = 1%nat).
Proof.
  intros items rs rd r Hall Hout.
  assert (Hrd : returned (out rd) = false) by (rewrite Hout; reflexivity).
  assert (Hr : r = mkRes (Ret false) (st rd)
        (target_events before rs ++ evs rd ++
         [EvLog Error ("Error in reproducing data file " +:+ data_relative d +:+
                       ": " +:+ msg)] ++
         errors_occurred C)).
  { subst r items.
    rewrite (repro_data_items_stopped fuel before d after s Hall Hrd).
    fold rs rd. rewrite Hout. reflexivity. }
  assert (Hnw : forall e, node_event e = true -> is_warning e = false)
    by (intros e He; destruct e; try reflexivity; discriminate).
  assert (Hnc : forall e, node_event e = true -> is_commit e = false)
    by (intros e He; destruct e; try reflexivity; discriminate).
  pose proof (all_returned_last_out fuel false before s) as Hret.
  fold rs in Hret. rewrite Hall in Hret.
  split; [exact Hr |]. split; [| split; [| split]].
  - subst items. apply (item_results_stop_at fuel false before d after s Hall Hrd).
  - rewrite Hr. cbn [evs]. rewrite !count_app.
    unfold rs at 1.
    rewrite (target_events_count is_warning fuel before s Hnw)
      by reflexivity.
    rewrite (node_events_count is_warning (evs rd) Hnw
               (reproduce_item_events fuel false d _)).
    unfold errors_occurred. destruct (skip_git_actions C); reflexivity.
  - rewrite Hr. cbn [evs]. rewrite !count_app.
    unfold rs at 1. rewrite (target_events_error_log fuel before s). fold rs.
    rewrite (node_events_count is_error_log (evs rd) node_event_not_error_log
               (reproduce_item_events fuel false d _)).
    unfold errors_occurred.
    destruct (last_out rs) as [b|e|]; try discriminate.
    destruct (skip_git_actions C); reflexivity.
  - intros target Hlock Hready Hitems.
    rewrite (run_resolved fuel target items s Hlock Hready Hitems). cbv zeta.
    fold r. cbn [out evs].
    assert (Hc : count is_commit (evs r) = 0%nat).
    { subst r. apply repro_data_items_count; try reflexivity. exact Hnc. }
    assert (Hl : count is_release (evs r) = 0%nat).
    { subst r. apply repro_data_items_count; try reflexivity.
      intros e He; destruct e; try reflexivity; discriminate. }
    rewrite !count_cons, !count_app, !count_cons, !count_app, Hc, Hl.
    rewrite !readiness_check_count by reflexivity.
    rewrite Hr. cbn [out]. repeat split.
Qed.


(** *** The claims about a node *)

Lemma all_returned_Ret fuel force items (s : State Repo) :
  all_returned (item_results C fuel force items s) = true ->
  exists b, last_out (item_results C fuel force items s) = Ret b.
Proof.
  rewrite all_returned_last_out.
  destruct (last_out (item_results C fuel force items s)) as [b|e|];
    try discriminate. eauto.
Qed.

Lemma all_returned_not_Ret fuel force items (s : State Repo) :
  all_returned (item_results C fuel force items s) = false ->
  forall b, last_out (item_results C fuel force items s) <> Ret b.
Proof.
  rewrite all_returned_last_out. intros H b Hb. rewrite Hb in H. discriminate.
Qed.

(** The regeneration removes the output once, whether it is there or not. *)
Lemma reproduce_data_file_removes (self : ReproChange) (s : State Repo) :
  count is_remove (evs (reproduce_data_file C self s)) = 1%nat /\
  count is_were_files_changed (evs (reproduce_data_file C self s)) = 0%nat /\
  count is_load (evs (reproduce_data_file C self s)) = 0%nat.
Proof.
  destruct (decide (data_relative (_data_item self) ∈ files (env s))) as [Hin|Hn].
  - rewrite (reproduce_data_file_present self s Hin). repeat split.
  - rewrite (reproduce_data_file_absent self s Hn). repeat split.
Qed.

(** Claim C1 (amended): a node that is not reproducible returns [False] at
    once, whatever [force] and the changes are: it looks at no dependency,
    asks git nothing and removes nothing.  A reproducible node whose
    dependencies resolve and whose children all return regenerates its
    output (it removes it and re-runs the command, and returns or raises
    what that does) if and only if [force] is set, or git reports its
    sources changed, or some child reported that it was regenerated;
    otherwise it returns [False] and removes nothing of its own.  When a
    dependency does not resolve or a child does not return, the node is not
    regenerated either, whatever the children before reported: the error
    leaves [reproduce]. *)
Theorem reproduce_decision n (self : ReproChange) force (s : State Repo) :
  let r := reproduce C (S n) self force s in
  let path := data_relative (_data_item self) in
  (is_reproducible (_state self) = false ->
   r = mkRes (Ret false) s
         [EvPrintReproduce (data_dvc (_data_item self));
          EvLog Debug ("Data file " +:+ dq +:+ path +:+ dq +:+
                       " is not reproducible")]) /\
  (forall e,
      is_reproducible (_state self) = true ->
      out (get_dependencies C self s) = Raise e ->
      out r = Raise e /\ count is_remove (evs r) = 0%nat) /\
  (forall deps,
      is_reproducible (_state self) = true ->
      out (get_dependencies C self s) = Ret deps ->
      let rs := item_results C n force deps s in
      let s1 := last_state s rs in
      let src := were_files_changed C path (code_dependencies (_state self)) (env s1) in
      let asked := EvWereFilesChanged path (code_dependencies (_state self)) src in
      let rdf := reproduce_data_file C self s1 in
      (all_returned rs = true ->
       (force || src || any_changed rs = true ->
        r = mkRes (out rdf) (st rdf)
              (prologue self ++ all_events rs ++ asked :: evs rdf)) /\
       (force || src || any_changed rs = false ->
        r = mkRes (Ret false) s1
              (prologue self ++ all_events rs ++
               [asked; EvLog Debug ("Data file " +:+ dq +:+ path +:+ dq +:+
                                    " is up to date")])) /\
       (count is_remove (evs r) =
          count is_remove (all_events rs) +
          (if force || src || any_changed rs then 1 else 0))%nat) /\
      (all_returned rs = false ->
       evs r = prologue self ++ all_events rs /\
       returned (out r) = false /\
       count is_remove (evs r) = count is_remove (all_events rs))).
Proof.
  intros r path. split; [| split].
  - intros Hr. apply (reproduce_not_reproducible n self force s Hr).
  - intros e Hr Hd. subst r.
    rewrite (reproduce_unresolved n self force s e Hr Hd). split; reflexivity.
  - intros deps Hr Hd rs s1 src asked rdf.
    pose proof (reproduce_reproducible n self force s deps Hr Hd) as H.
    cbv zeta in H. fold r path rs s1 src asked rdf in H.
    assert (Hgo : negb force && negb src && negb (any_changed rs) =
                  negb (force || src || any_changed rs))
      by (destruct force, src, (any_changed rs); reflexivity).
    rewrite Hgo in H. split.
    + intros Hall. destruct (all_returned_Ret n force deps s Hall) as (b & Hb).
      fold rs in Hb. rewrite Hb in H.
      destruct (force || src || any_changed rs); cbn [negb] in H.
      * split; [intros _; exact H |]. split; [discriminate |].
        rewrite H. cbn [evs]. rewrite !count_app, count_cons.
        destruct (reproduce_data_file_removes self s1) as (Hrm & _).
        fold rdf in Hrm. rewrite Hrm. cbn. lia.
      * split; [discriminate |]. split; [intros _; exact H |].
        rewrite H. cbn [evs]. rewrite !count_app. cbn. lia.
    + intros Hall. pose proof (all_returned_not_Ret n force deps s Hall) as Hn.
      fold rs in Hn.
      destruct (last_out rs) as [b|e|]; [exfalso; apply (Hn b); reflexivity | |];
        rewrite H; cbn [evs out returned]; rewrite !count_app; cbn;
        repeat split.
Qed.

(** Claim C8 (amended): a reproducible node whose dependencies resolve and
    whose children all return asks git whether its files changed exactly
    once, after the events of all its children and not before them.  A node
    that is not reproducible, one with a dependency that does not resolve,
    and one with a child that does not return never ask at all. *)
Theorem change_detector_after_children n (self : ReproChange) force (s : State Repo) :
  let r := reproduce C (S n) self force s in
  let path := data_relative (_data_item self) in
  (is_reproducible (_state self) = false ->
   count is_were_files_changed (evs r) = 0%nat) /\
  (forall e,
      is_reproducible (_state self) = true ->
      out (get_dependencies C self s) = Raise e ->
      count is_were_files_changed (evs r) = 0%nat) /\
  (forall deps,
      is_reproducible (_state self) = true ->
      out (get_dependencies C self s) = Ret deps ->
      let rs := item_results C n force deps s in
      let src := were_files_changed C path (code_dependencies (_state self))
                   (env (last_state s rs)) in
      (all_returned rs = true ->
       exists tail,
         evs r = prologue self ++ all_events rs ++
                 EvWereFilesChanged path (code_dependencies (_state self)) src :: tail /\
         count is_were_files_changed (prologue self) = 0%nat /\
         count is_were_files_changed tail = 0%nat) /\
      (all_returned rs = false -> evs r = prologue self ++ all_events rs)).
Proof.
  intros r path. split; [| split].
  - intros Hr. subst r. rewrite (reproduce_not_reproducible n self force s Hr).
    reflexivity.
  - intros e Hr Hd. subst r.
    rewrite (reproduce_unresolved n self force s e Hr Hd). reflexivity.
  - intros deps Hr Hd rs src.
    pose proof (reproduce_reproducible n self force s deps Hr Hd) as H.
    cbv zeta in H. fold r path rs src in H. split.
    + intros Hall. destruct (all_returned_Ret n force deps s Hall) as (b & Hb).
      fold rs in Hb. rewrite Hb in H.
      destruct (negb force && negb src && negb (any_changed rs));
        rewrite H; cbn [evs]; eexists; (split; [reflexivity |]);
        (split; [reflexivity |]).
      * reflexivity.
      * apply reproduce_data_file_removes.
    + intros Hall. pose proof (all_returned_not_Ret n force deps s Hall) as Hn.
      fold rs in Hn.
      destruct (last_out rs) as [b|e|]; [exfalso; apply (Hn b); reflexivity | |];
        rewrite H; reflexivity.
Qed.

(** Claim C10: a regeneration removes the output before it runs the
    command, and the command runs without the output on disk.  When the
    output is not on disk the removal raises [OSError], which is not a
    [ReproError], and no command is run.  Such an exception leaves
    [repro_data_items] as it is: no error is logged about the target and no
    warning about changes that are not committed is given; it leaves [run]
    too, after the lock is released and with nothing committed. *)
Theorem missing_output_escapes :
  (forall (self : ReproChange) (s : State Repo),
      let p := data_relative (_data_item self) in
      let argv := _repro_argv self in
      let without := mkEnv (files (env s) ∖ {[p]}) (repo (env s)) in
      (p ∈ files (env s) ->
       exists l1 l2,
         evs (reproduce_data_file C self s) =
           [EvLog Debug l1; EvRemove p; EvLog Debug l2;
            EvRunCommand argv (data_items_from_args C argv)] /\
         env (st (reproduce_data_file C self s)) =
           snd (run_command C argv (data_items_from_args C argv) without)) /\
      (p ∉ files (env s) ->
       exists l1,
         reproduce_data_file C self s =
           mkRes (Raise (OSError p)) s [EvLog Debug l1; EvRemove p] /\
         is_ReproError (OSError p) = false)) /\
  (forall n (self : ReproChange) force (s : State Repo) deps,
      let path := data_relative (_data_item self) in
      let rs := item_results C n force deps s in
      let s1 := last_state s rs in
      is_reproducible (_state self) = true ->
      out (get_dependencies C self s) = Ret deps ->
      all_returned rs = true ->
      force || were_files_changed C path (code_dependencies (_state self)) (env s1)
        || any_changed rs = true ->
      path ∉ files (env s1) ->
      out (reproduce C (S n) self force s) = Raise (OSError path) /\
      count is_run_command (evs (reproduce C (S n) self force s)) =
        count is_run_command (all_events rs)) /\
  (forall fuel before d after f (s : State Repo),
      let items := before ++ d :: after in
      let rs := item_results C fuel false before s in
      let rd := reproduce_item C fuel false d (last_state s rs) in
      let r := repro_data_items C fuel items s in
      all_returned rs = true ->
      out rd = Raise (OSError f) ->
      out r = Raise (OSError f) /\
      count is_error_log (evs r) = 0%nat /\
      count is_warning (evs r) = 0%nat /\
      (forall target,
          lock_acquire C (lock_file C) 5 (env s) = true ->
          skip_git_actions C = true \/ is_ready_to_go C (env s) = true ->
          to_data_items_from C target [] [] = inr (items, []) ->
          out (run C fuel target s) = Raise (OSError f) /\
          exists body,
            evs (run C fuel target s) =
              EvLockAcquire (lock_file C) 5 true :: body ++ [EvLockRelease] /\
            count is_error_log body = 0%nat /\
            count is_warning body = 0%nat /\
            count is_commit body = 0%nat)).
Proof.
  split; [| split].
  - intros self s p argv without. split.
    + intros Hin. rewrite (reproduce_data_file_present self s Hin).
      cbn [evs st env]. eauto.
    + intros Hn. rewrite (reproduce_data_file_absent self s Hn). eauto.
  - intros n self force s deps path rs s1 Hr Hd Hall Hgo Hn.
    rewrite (reproduce_reproducible n self force s deps Hr Hd). cbv zeta.
    fold path rs s1.
    destruct (all_returned_Ret n force deps s Hall) as (b & Hb).
    fold rs in Hb. rewrite Hb.
    assert (Hgo' : negb force &&
        negb (were_files_changed C path (code_dependencies (_state self)) (env s1)) &&
        negb (any_changed rs) = false).
    { destruct force,
        (were_files_changed C path (code_dependencies (_state self)) (env s1)),
        (any_changed rs); try reflexivity; discriminate. }
    rewrite Hgo'. rewrite (reproduce_data_file_absent self s1 Hn).
    cbn [out evs]. split; [reflexivity |].
    rewrite !count_app. cbn. lia.
  - intros fuel before d after f s items rs rd r Hall Hout.
    assert (Hrd : returned (out rd) = false) by (rewrite Hout; reflexivity).
    assert (Hnw : forall e, node_event e = true -> is_warning e = false)
      by (intros e He; destruct e; try reflexivity; discriminate).
    assert (Hnc : forall e, node_event e = true -> is_commit e = false)
      by (intros e He; destruct e; try reflexivity; discriminate).
    pose proof (all_returned_last_out fuel false before s) as Hret.
    fold rs in Hret. rewrite Hall in Hret.
    assert (Hr : r = mkRes (Raise (OSError f)) (st rd)
                       (target_events before rs ++ evs rd)).
    { subst r items.
      rewrite (repro_data_items_stopped fuel before d after s Hall Hrd).
      fold rs rd. rewrite Hout. cbn [item_log]. rewrite !app_nil_r. reflexivity. }
    assert (He : count is_error_log (evs r) = 0%nat).
    { rewrite Hr. cbn [evs]. rewrite count_app. unfold rs at 1.
      rewrite (target_events_error_log fuel before s). fold rs.
      rewrite (node_events_count is_error_log (evs rd) node_event_not_error_log
                 (reproduce_item_events fuel false d _)).
      destruct (last_out rs) as [b|e|]; try discriminate. reflexivity. }
    assert (Hw : count is_warning (evs r) = 0%nat).
    { rewrite Hr. cbn [evs]. rewrite count_app. unfold rs at 1.
      rewrite (target_events_count is_warning fuel before s Hnw) by reflexivity.
      apply (node_events_count is_warning (evs rd) Hnw
               (reproduce_item_events fuel false d _)). }
    split; [rewrite Hr; reflexivity |]. split; [exact He |]. split; [exact Hw |].
    intros target Hlock Hready Hitems.
    rewrite (run_resolved fuel target items s Hlock Hready Hitems). cbv zeta.
    fold r.
    assert (Ho : out r = Raise (OSError f)) by (rewrite Hr; reflexivity).
    rewrite Ho. cbn [out evs]. split; [reflexivity |].
    exists (readiness_check C ++ EvToDataItems target :: evs r).
    split.
    + rewrite <- app_assoc. reflexivity.
    + rewrite !count_app, !count_cons, He, Hw.
      rewrite !readiness_check_count by reflexivity.
      assert (Hc : count is_commit (evs r) = 0%nat).
      { subst r. apply repro_data_items_count; try reflexivity. exact Hnc. }
      rewrite Hc. repeat split.
Qed.


(** *** The attribute [_code] *)

Lemma last_loaded_app (l1 l2 : list Event) :
  last_loaded (l1 ++ l2) =
    match last_loaded l2 with
    | Some f => Some f
    | None => last_loaded l1
    end.
Proof.
  induction l1 as [|e l1 IH]; cbn [app last_loaded].
  - destruct (last_loaded l2); reflexivity.
  - rewrite IH. destruct (last_loaded l2); reflexivity.
Qed.

Lemma code_after_app (s s1 : State Repo) (l1 l2 : list Event) :
  code s1 = code_after s l1 ->
  code_after s1 l2 = code_after s (l1 ++ l2).
Proof.
  intros H. unfold code_after in *. rewrite last_loaded_app.
  destruct (last_loaded l2); [reflexivity | exact H].
Qed.

Local Notation "'tracks' m" :=
  (forall s : State Repo, code (st (m s)) = code_after s (evs (m s)))
  (at level 10, m at level 9).

Lemma tracks_bind {A B} (m : M Repo A) (k : A -> M Repo B) :
  tracks m -> (forall a, tracks (k a)) -> tracks (bind m k).
Proof.
  intros Hm Hk s. unfold bind.
  destruct (out (m s)) as [a|e|]; cbn [st evs]; try apply Hm.
  rewrite (Hk a (st (m s))). apply code_after_app, Hm.
Qed.

Lemma tracks_ret {A} (a : A) : tracks (ret (Repo := Repo) a).
Proof. intros s. reflexivity. Qed.

Lemma tracks_ReproChange_init d : tracks (ReproChange_init C d).
Proof. intros s. rewrite ReproChange_init_spec. reflexivity. Qed.

Lemma tracks_reproduce_data_file self : tracks (reproduce_data_file C self).
Proof.
  intros s.
  destruct (decide (data_relative (_data_item self) ∈ files (env s))) as [Hin|Hn].
  - rewrite (reproduce_data_file_present self s Hin). reflexivity.
  - rewrite (reproduce_data_file_absent self s Hn). reflexivity.
Qed.

Lemma tracks_get_dependencies self : tracks (get_dependencies C self).
Proof. intros s. rewrite (get_dependencies_pure self s s). reflexivity. Qed.

Lemma tracks_reproduce_dependencies rec deps force acc :
  (forall self force, tracks (rec self force)) ->
  tracks (reproduce_dependencies C rec deps force acc).
Proof.
  intros Hrec. revert acc. induction deps as [|d rest IH]; intros acc.
  - apply tracks_ret.
  - cbn [reproduce_dependencies].
    apply tracks_bind; [apply tracks_ReproChange_init |]. intros change.
    apply tracks_bind; [apply Hrec |]. intros b. apply IH.
Qed.

Lemma tracks_reproduce fuel self force : tracks (reproduce C fuel self force).
Proof.
  revert self force. induction fuel as [|n IH]; intros self force.
  - intros s. reflexivity.
  - cbn [reproduce].
    apply tracks_bind; [intros s; reflexivity |]. intros _.
    destruct (negb (is_reproducible (_state self))).
    + apply tracks_bind; [intros s; reflexivity |]. intros _. apply tracks_ret.
    + apply tracks_bind; [apply tracks_get_dependencies |]. intros _.
      apply tracks_bind; [intros s; reflexivity |]. intros _.
      apply tracks_bind; [apply tracks_get_dependencies |]. intros deps.
      apply tracks_bind; [apply tracks_reproduce_dependencies, IH |]. intros inputs.
      apply tracks_bind; [intros s; reflexivity |]. intros src.
      destruct (negb force && negb src && negb inputs).
      * apply tracks_bind; [intros s; reflexivity |]. intros _. apply tracks_ret.
      * apply tracks_reproduce_data_file.
Qed.

Lemma tracks_reproduce_item fuel force d : tracks (reproduce_item C fuel force d).
Proof.
  unfold reproduce_item.
  apply tracks_bind; [apply tracks_ReproChange_init |]. intros change.
  apply tracks_reproduce.
Qed.

Lemma tracks_repro_data_item fuel d changed :
  tracks (repro_data_item C fuel d changed).
Proof.
  intros s. rewrite repro_data_item_spec. cbv zeta. cbn [st evs].
  symmetry. erewrite <- code_after_app.
  - unfold code_after.
    assert (H : last_loaded
              (item_log d (out (reproduce_item C fuel false d s))) = None).
    { destruct (out (reproduce_item C fuel false d s)) as [[|]|[m|f|m]|];
        reflexivity. }
    rewrite H. reflexivity.
  - apply tracks_reproduce_item.
Qed.

Lemma tracks_repro_data_items_loop fuel items changed :
  tracks (repro_data_items_loop C fuel items changed).
Proof.
  revert changed. induction items as [|d rest IH]; intros changed.
  - apply tracks_ret.
  - cbn [repro_data_items_loop].
    apply tracks_bind; [apply tracks_repro_data_item |]. intros [c|].
    + apply IH.
    + apply tracks_ret.
Qed.

Lemma tracks_repro_data_items fuel items : tracks (repro_data_items C fuel items).
Proof.
  unfold repro_data_items.
  apply tracks_bind; [apply tracks_repro_data_items_loop |]. intros [e c].
  apply tracks_bind; [| intros _; apply tracks_ret].
  destruct (fst (e, c) && negb (skip_git_actions C)).
  - intros s. reflexivity.
  - apply tracks_ret.
Qed.

Lemma tracks_run_body fuel target : tracks (run_body C fuel target).
Proof.
  unfold run_body.
  apply tracks_bind.
  - destruct (negb (skip_git_actions C)); intros s; reflexivity.
  - intros [|]; [apply tracks_ret |].
    apply tracks_bind.
    + intros s. unfold to_data_items. rewrite bind_emit.
      destruct (to_data_items_from C target [] []); reflexivity.
    + intros [items [|f external]]; cbn [fst snd].
      * apply tracks_bind; [apply tracks_repro_data_items |].
        intros [|]; [intros s; reflexivity | apply tracks_ret].
      * intros s. reflexivity.
Qed.

Lemma tracks_run fuel target : tracks (run C fuel target).
Proof.
  intros s. rewrite run_spec. cbv zeta.
  pose proof (tracks_run_body fuel target s) as H.
  destruct (lock_acquire C (lock_file C) 5 (env s)); [| reflexivity].
  assert (Hl : forall l, last_loaded (EvLockAcquire (lock_file C) 5 true :: l) =
                         last_loaded l).
  { intros l. cbn [last_loaded]. destruct (last_loaded l); reflexivity. }
  assert (Hr : forall l, last_loaded (l ++ [EvLockRelease]) = last_loaded l).
  { intros l. rewrite last_loaded_app. reflexivity. }
  destruct (out (run_body C fuel target s)); cbn [st evs]; rewrite H;
    unfold code_after; rewrite Hl, ?Hr; reflexivity.
Qed.

(** A data item is reproduced by loading its state file first. *)
Lemma reproduce_item_first fuel force d (s : State Repo) :
  exists rest,
    evs (reproduce_item C fuel force d s) =
      EvLoad (state_relative d) (load C (state_relative d) (env s)) :: rest.
Proof.
  unfold reproduce_item.
  rewrite (bind_eq _ _ s _ (ReproChange_init_spec d s)). cbv zeta.
  cbn [out st evs].
  destruct (norm_argv (load C (state_relative d) (env s))) as [[|a [|b l]]|];
    cbn; eexists; reflexivity.
Qed.

(** Claim C9 (amended): constructing a node replaces the list [_code] of
    the driver by the code dependencies of the node's own state file,
    whatever the list held before.  So after a node was reproduced, and
    after a whole run, the list holds the code dependencies of the state
    file that was loaded last, and nothing of the nodes constructed before
    it; it is unchanged when no state file was loaded. *)
Theorem code_is_of_the_last_node :
  (forall d (s : State Repo),
      code (st (ReproChange_init C d s)) =
        code_dependencies (load C (state_relative d) (env s))) /\
  (forall fuel force d (s : State Repo),
      let r := reproduce_item C fuel force d s in
      exists f, last_loaded (evs r) = Some f /\ code (st r) = code_dependencies f) /\
  (forall fuel target (s : State Repo),
      code (st (run C fuel target s)) = code_after s (evs (run C fuel target s))).
Proof.
  split; [| split].
  - intros d s. rewrite ReproChange_init_spec. reflexivity.
  - intros fuel force d s r.
    pose proof (tracks_reproduce_item fuel force d s) as H. fold r in H.
    unfold code_after in H.
    assert (Hl : exists f, last_loaded (evs r) = Some f).
    { destruct (reproduce_item_first fuel force d s) as (rest & Hrest).
      fold r in Hrest. rewrite Hrest. cbn [last_loaded].
      destruct (last_loaded rest); eexists; reflexivity. }
    destruct Hl as (f & Hf). exists f. rewrite Hf in H. split; assumption.
  - apply tracks_run.
Qed.


(** *** Regeneration, step by step *)

(** The constructor on a state file whose command is well formed. *)
Lemma ReproChange_init_Ret d (s : State Repo) argv :
  norm_argv (load C (state_relative d) (env s)) = Some argv ->
  (2 <= length argv)%nat ->
  ReproChange_init C d s =
    mkRes (Ret (mkReproChange d (load C (state_relative d) (env s)) argv))
          (mkState (env s) (code_dependencies (load C (state_relative d) (env s))))
          [EvLoad (state_relative d) (load C (state_relative d) (env s))].
Proof.
  intros Ha Hlen. rewrite ReproChange_init_spec. cbv zeta. rewrite Ha.
  destruct argv as [|a [|b l]]; cbn [length] in Hlen; try lia. reflexivity.
Qed.

(** A data item whose command is well formed: the node is constructed and
    reproduced. *)
Lemma reproduce_item_Ret fuel force d (s : State Repo) argv :
  let state := load C (state_relative d) (env s) in
  let r := reproduce C fuel (mkReproChange d state argv) force
             (mkState (env s) (code_dependencies state)) in
  norm_argv state = Some argv ->
  (2 <= length argv)%nat ->
  reproduce_item C fuel force d s =
    mkRes (out r) (st r) (EvLoad (state_relative d) state :: evs r).
Proof.
  intros state r Ha Hlen. unfold reproduce_item.
  rewrite (bind_eq _ _ s _ (ReproChange_init_Ret d s argv Ha Hlen)).
  reflexivity.
Qed.

(** What the regeneration of a node whose output is on disk leaves in the
    trace after git was asked. *)
Lemma reproduce_regenerated n (self : ReproChange) force (s : State Repo) deps b e' :
  let rs := item_results C n force deps s in
  let s1 := last_state s rs in
  let path := data_relative (_data_item self) in
  let argv := _repro_argv self in
  let src := were_files_changed C path (code_dependencies (_state self)) (env s1) in
  is_reproducible (_state self) = true ->
  out (get_dependencies C self s) = Ret deps ->
  all_returned rs = true ->
  force || src || any_changed rs = true ->
  path ∈ files (env s1) ->
  run_command C argv (data_items_from_args C argv)
    (mkEnv (files (env s1) ∖ {[path]}) (repo (env s1))) = (inr b, e') ->
  reproduce C (S n) self force s =
    mkRes (Ret b) (mkState e' (code s1))
      (prologue self ++ all_events rs ++
       [EvWereFilesChanged path (code_dependencies (_state self)) src;
        EvLog Debug ("Reproducing data file " +:+ dq +:+ path +:+ dq +:+
                     ". Removing the file...");
        EvRemove path;
        EvLog Debug ("Reproducing data file " +:+ dq +:+ path +:+ dq +:+
                     ". Re-runs cmd: " +:+ join " " argv);
        EvRunCommand argv (data_items_from_args C argv)]).
Proof.
  intros rs s1 path argv src Hr Hd Hall Hgo Hin Hrun.
  rewrite (reproduce_reproducible n self force s deps Hr Hd). cbv zeta.
  fold rs s1 path src.
  destruct (all_returned_Ret n force deps s Hall) as (x & Hx).
  fold rs in Hx. rewrite Hx.
  assert (Hgo' : negb force && negb src && negb (any_changed rs) = false).
  { destruct force, src, (any_changed rs); try reflexivity; discriminate. }
  rewrite Hgo'. rewrite (reproduce_data_file_present self s1 Hin).
  fold path argv. rewrite Hrun. reflexivity.
Qed.

Lemma all_returned_app_l fuel force before rest (s : State Repo) :
  all_returned (item_results C fuel force (before ++ rest) s) = true ->
  all_returned (item_results C fuel force before s) = true.
Proof.
  revert s. induction before as [|d before IH]; intros s H; [reflexivity |].
  rewrite <- app_comm_cons in H. rewrite item_results_cons in H.
  rewrite item_results_cons.
  unfold all_returned in *. cbn [forallb] in *.
  destruct (returned (out (reproduce_item C fuel force d s))); [| discriminate].
  cbn [andb] in *. apply IH, H.
Qed.

(** A loop that gets through all the items gets to each of them. *)
Lemma item_results_middle fuel force before d after (s : State Repo) :
  all_returned (item_results C fuel force (before ++ d :: after) s) = true ->
  exists tail,
    item_results C fuel force (before ++ d :: after) s =
      item_results C fuel force before s ++
      reproduce_item C fuel force d
        (last_state s (item_results C fuel force before s)) :: tail.
Proof.
  intros H.
  rewrite (item_results_app fuel force before (d :: after) s
             (all_returned_app_l fuel force before (d :: after) s H)).
  rewrite item_results_cons. eexists. reflexivity.
Qed.

(** A node one of whose children reported that it was regenerated is
    regenerated after all that its children did. *)
Lemma reproduce_after_changed_child n (self : ReproChange) (s : State Repo)
    before d after e' :
  let rs := item_results C n false (before ++ d :: after) s in
  let rd := reproduce_item C n false d
              (last_state s (item_results C n false before s)) in
  let s1 := last_state s rs in
  let path := data_relative (_data_item self) in
  let argv := _repro_argv self in
  is_reproducible (_state self) = true ->
  out (get_dependencies C self s) = Ret (before ++ d :: after) ->
  all_returned rs = true ->
  out rd = Ret true ->
  path ∈ files (env s1) ->
  run_command C argv (data_items_from_args C argv)
    (mkEnv (files (env s1) ∖ {[path]}) (repo (env s1))) = (inr true, e') ->
  exists l1 l2,
    reproduce C (S n) self false s =
      mkRes (Ret true) (mkState e' (code s1))
            (l1 ++ evs rd ++ l2 ++ regeneration C self).
Proof.
  intros rs rd s1 path argv Hr Hd Hall Hout Hin Hrun.
  destruct (item_results_middle n false before d after s Hall) as (tail & Hrs).
  fold rs rd in Hrs.
  assert (Hany : any_changed rs = true).
  { rewrite Hrs, any_changed_app. unfold any_changed at 2. cbn [existsb].
    unfold reported_changed at 1. rewrite Hout. apply orb_true_r. }
  assert (Hgo : false ||
                were_files_changed C path (code_dependencies (_state self)) (env s1)
                || any_changed rs = true)
    by (rewrite Hany; apply orb_true_r).
  rewrite (reproduce_regenerated n self false s (before ++ d :: after) true e'
             Hr Hd Hall Hgo Hin Hrun).
  fold rs s1 path argv.
  exists (prologue self ++ all_events (item_results C n false before s)).
  exists (all_events tail ++
          [EvWereFilesChanged path (code_dependencies (_state self))
             (were_files_changed C path (code_dependencies (_state self)) (env s1));
           EvLog Debug ("Reproducing data file " +:+ dq +:+ path +:+ dq +:+
                        ". Removing the file...")]).
  rewrite Hrs, all_events_app. unfold all_events at 2. cbn [map concat].
  fold (all_events tail). unfold regeneration. fold path argv.
  rewrite <- !app_assoc. reflexivity.
Qed.

(** Claim C2 (amended): a reproducible node whose dependencies resolve
    reproduces its children in the declared order, each from the state the
    one before left, and goes on to the next child whenever the one before
    returned, whether it reported a change or not; only then does it turn
    to itself, and it constructs no child afterwards.  A child that does
    not return ends the loop: the children after it are not reproduced and
    what it raised leaves the node.  A node that is not reproducible
    reproduces no child.  Hence along a chain A, B, C of reproducible
    nodes with well formed commands, B among the dependencies of A and C
    among those of B, when the dependencies of the three resolve and their
    children all return, the sources of C changed, every output is on disk
    when its turn comes and every command reports success, C is
    regenerated first, then B, then A, and each reports [True]. *)
Theorem children_reproduced_in_order :
  (forall n (self : ReproChange) force (s : State Repo) deps,
      is_reproducible (_state self) = true ->
      out (get_dependencies C self s) = Ret deps ->
      let rs := item_results C n force deps s in
      let r := reproduce C (S n) self force s in
      (exists tail,
          evs r = prologue self ++ all_events rs ++ tail /\
          count is_load tail = 0%nat) /\
      (forall before d after,
          deps = before ++ d :: after ->
          all_returned (item_results C n force before s) = true ->
          rs !! length before =
            Some (reproduce_item C n force d
                    (last_state s (item_results C n force before s)))) /\
      (all_returned rs = true -> length rs = length deps)) /\
  (forall n (self : ReproChange) force (s : State Repo) before d after,
      let rs0 := item_results C n force before s in
      let rd := reproduce_item C n force d (last_state s rs0) in
      is_reproducible (_state self) = true ->
      out (get_dependencies C self s) = Ret (before ++ d :: after) ->
      all_returned rs0 = true ->
      returned (out rd) = false ->
      item_results C n force (before ++ d :: after) s = rs0 ++ [rd] /\
      reproduce C (S n) self force s =
        mkRes (out rd) (st rd) (prologue self ++ all_events rs0 ++ evs rd)) /\
  (forall n (self : ReproChange) force (s : State Repo),
      is_reproducible (_state self) = false ->
      reproduce C (S n) self force s =
        mkRes (Ret false) s
          [EvPrintReproduce (data_dvc (_data_item self));
           EvLog Debug ("Data file " +:+ dq +:+
                        data_relative (_data_item self) +:+ dq +:+
                        " is not reproducible")] /\
      count is_load (evs (reproduce C (S n) self force s)) = 0%nat) /\
  (forall n (a : ReproChange) (s : State Repo)
          beforeA dB afterA argvB beforeB dC afterB argvC depsC eC eB eA,
      let rsA := item_results C (S (S n)) false (beforeA ++ dB :: afterA) s in
      let sB := last_state s (item_results C (S (S n)) false beforeA s) in
      let stB := load C (state_relative dB) (env sB) in
      let nodeB := mkReproChange dB stB argvB in
      let sB0 := mkState (env sB) (code_dependencies stB) in
      let rsB := item_results C (S n) false (beforeB ++ dC :: afterB) sB0 in
      let sC := last_state sB0 (item_results C (S n) false beforeB sB0) in
      let stC := load C (state_relative dC) (env sC) in
      let nodeC := mkReproChange dC stC argvC in
      let sC0 := mkState (env sC) (code_dependencies stC) in
      let rsC := item_results C n false depsC sC0 in
      let envA := env (last_state s rsA) in
      let envB := env (last_state sB0 rsB) in
      let envC := env (last_state sC0 rsC) in
      let pa := data_relative (_data_item a) in
      let pb := data_relative dB in
      let pc := data_relative dC in
      let rC := reproduce_item C (S n) false dC sC in
      let rB := reproduce_item C (S (S n)) false dB sB in
      let rA := reproduce C (S (S (S n))) a false s in
      is_reproducible (_state a) = true ->
      out (get_dependencies C a s) = Ret (beforeA ++ dB :: afterA) ->
      all_returned rsA = true ->
      norm_argv stB = Some argvB -> (2 <= length argvB)%nat ->
      is_reproducible stB = true ->
      out (get_dependencies C nodeB sB0) = Ret (beforeB ++ dC :: afterB) ->
      all_returned rsB = true ->
      norm_argv stC = Some argvC -> (2 <= length argvC)%nat ->
      is_reproducible stC = true ->
      out (get_dependencies C nodeC sC0) = Ret depsC ->
      all_returned rsC = true ->
      were_files_changed C pc (code_dependencies stC) envC = true ->
      pc ∈ files envC ->
      run_command C argvC (data_items_from_args C argvC)
        (mkEnv (files envC ∖ {[pc]}) (repo envC)) = (inr true, eC) ->
      pb ∈ files envB ->
      run_command C argvB (data_items_from_args C argvB)
        (mkEnv (files envB ∖ {[pb]}) (repo envB)) = (inr true, eB) ->
      pa ∈ files envA ->
      run_command C (_repro_argv a) (data_items_from_args C (_repro_argv a))
        (mkEnv (files envA ∖ {[pa]}) (repo envA)) = (inr true, eA) ->
      out rC = Ret true /\ out rB = Ret true /\ out rA = Ret true /\
      env (st rC) = eC /\ env (st rB) = eB /\ env (st rA) = eA /\
      (exists c1, evs rC = c1 ++ regeneration C nodeC) /\
      (exists b1 b2, evs rB = b1 ++ evs rC ++ b2 ++ regeneration C nodeB) /\
      (exists a1 a2, evs rA = a1 ++ evs rB ++ a2 ++ regeneration C a)).
Proof.
  split; [| split; [| split]].
  - intros n self force s deps Hr Hd rs r. split; [| split].
    + pose proof (reproduce_reproducible n self force s deps Hr Hd) as H.
      cbv zeta in H. fold rs r in H.
      destruct (last_out rs) as [b|e|].
      * destruct (negb force && _ && _); rewrite H; cbn [evs];
          eexists; (split; [reflexivity |]).
        -- reflexivity.
        -- rewrite count_cons. cbn [is_load].
           apply reproduce_data_file_removes.
      * rewrite H. exists []. rewrite app_nil_r. split; reflexivity.
      * rewrite H. exists []. rewrite app_nil_r. split; reflexivity.
    + intros before d after -> Hall. subst rs.
      rewrite (item_results_app n force before (d :: after) s Hall).
      rewrite item_results_cons.
      apply list_lookup_middle. symmetry. apply all_returned_length, Hall.
    + apply all_returned_length.
  - intros n self force s before d after rs0 rd Hr Hd Hall Hrd.
    pose proof (item_results_stop_at n force before d after s Hall Hrd) as Hrs.
    fold rs0 rd in Hrs. split; [exact Hrs |].
    rewrite (reproduce_reproducible n self force s _ Hr Hd). cbv zeta.
    rewrite Hrs, last_out_app_single, last_state_app_single, all_events_app.
    assert (Hone : all_events [rd] = evs rd)
      by (unfold all_events; cbn [map concat]; apply app_nil_r).
    rewrite Hone.
    destruct (out rd) as [b|e|]; [discriminate | reflexivity | reflexivity].
  - intros n self force s Hr.
    rewrite (reproduce_not_reproducible n self force s Hr).
    split; reflexivity.
  - intros n a s beforeA dB afterA argvB beforeB dC afterB argvC depsC eC eB eA
      rsA sB stB nodeB sB0 rsB sC stC nodeC sC0 rsC envA envB envC pa pb pc
      rC rB rA
      HrA HdA HallA HaB HlB HrB HdB HallB HaC HlC HrC HdC HallC Hsrc
      HinC HrunC HinB HrunB HinA HrunA.
    (* C: its sources changed *)
    assert (HgoC : false || were_files_changed C pc (code_dependencies stC) envC
                   || any_changed rsC = true) by (rewrite Hsrc; reflexivity).
    pose proof (reproduce_regenerated n nodeC false sC0 depsC true eC
                  HrC HdC HallC HgoC HinC HrunC) as HC.
    cbv zeta in HC.
    pose proof (reproduce_item_Ret (S n) false dC sC argvC HaC HlC) as HrCeq.
    cbv zeta in HrCeq. fold stC nodeC sC0 rC in HrCeq.
    rewrite HC in HrCeq. cbn [out st evs] in HrCeq.
    assert (HoC : out rC = Ret true) by (rewrite HrCeq; reflexivity).
    (* B: its child C reported a change *)
    destruct (reproduce_after_changed_child (S n) nodeB sB0 beforeB dC afterB eB
                HrB HdB HallB HoC HinB HrunB) as (b1 & b2 & HB).
    pose proof (reproduce_item_Ret (S (S n)) false dB sB argvB HaB HlB) as HrBeq.
    cbv zeta in HrBeq. fold stB nodeB sB0 rB in HrBeq.
    rewrite HB in HrBeq. cbn [out st evs] in HrBeq.
    assert (HoB : out rB = Ret true) by (rewrite HrBeq; reflexivity).
    (* A: its child B reported a change *)
    destruct (reproduce_after_changed_child (S (S n)) a s beforeA dB afterA eA
                HrA HdA HallA HoB HinA HrunA) as (a1 & a2 & HA).
    fold rA rB in HA.
    split; [exact HoC |]. split; [exact HoB |].
    split; [rewrite HA; reflexivity |].
    split; [rewrite HrCeq; reflexivity |].
    split; [rewrite HrBeq; reflexivity |].
    split; [rewrite HA; reflexivity |].
    split; [| split].
    + exists (EvLoad (state_relative dC) stC :: prologue nodeC ++
              all_events rsC ++
              [EvWereFilesChanged pc (code_dependencies stC)
                 (were_files_changed C pc (code_dependencies stC) envC);
               EvLog Debug ("Reproducing data file " +:+ dq +:+ pc +:+ dq +:+
                            ". Removing the file...")]).
      rewrite HrCeq. cbn [evs]. unfold regeneration.
      rewrite <- app_comm_cons, <- !app_assoc. reflexivity.
    + exists (EvLoad (state_relative dB) stB :: b1), b2.
      rewrite HrBeq. reflexivity.
    + exists a1, a2. rewrite HA. reflexivity.
Qed.


(** ** Further properties *)

(** *** Resolving the dependencies *)

Lemma get_dependencies_from_resolved inputs acc (s : State Repo) :
  (forall i, In i inputs -> exists d, data_item C i = Resolved d) ->
  get_dependencies_from C inputs acc s =
    mkRes (Ret (acc ++ resolved C inputs)) s [].
Proof.
  revert acc. induction inputs as [|i rest IH]; intros acc H.
  - cbn. rewrite app_nil_r. reflexivity.
  - destruct (H i (or_introl eq_refl)) as (d & Hd).
    cbn [get_dependencies_from]. rewrite Hd.
    rewrite IH by (intros j Hj; apply H; right; exact Hj).
    unfold resolved. cbn. rewrite Hd. rewrite <- app_assoc. reflexivity.
Qed.

Lemma get_dependencies_from_unresolved before i (s : State Repo) :
  (forall j, In j before -> exists d, data_item C j = Resolved d) ->
  (forall d, data_item C i <> Resolved d) ->
  exists msg,
    contains i msg /\
    forall after acc,
      get_dependencies_from C (before ++ i :: after) acc s =
        mkRes (Raise (ReproError ("Run error: " +:+ msg))) s [].
Proof.
  intros Hb Hi.
  assert (Hhere : exists msg, contains i msg /\
            forall after acc,
              get_dependencies_from C (i :: after) acc s =
                mkRes (Raise (ReproError ("Run error: " +:+ msg))) s []).
  { cbn [get_dependencies_from].
    destruct (data_item C i) as [d| |ex] eqn:E.
    - exfalso. apply (Hi d). reflexivity.
    - eexists. split; [| intros; reflexivity].
      do 2 apply contains_append_r. apply contains_append_l, contains_refl.
    - eexists. split; [| intros; reflexivity].
      do 2 apply contains_append_r. apply contains_append_l, contains_refl. }
  destruct Hhere as (msg & Hc & Hhere). exists msg. split; [exact Hc |].
  intros after. induction before as [|j rest IH]; intros acc.
  - apply Hhere.
  - destruct (Hb j (or_introl eq_refl)) as (d & Hd).
    cbn [app get_dependencies_from]. rewrite Hd.
    apply IH. intros k Hk. apply Hb. right. exact Hk.
Qed.

(** [get_dependencies] returns the data items of the input files, in the
    order of the state file, when every input file is a data item.  At the
    first input file that is not, whether it lies outside of the data
    directory or the path factory fails on it, a [ReproError] is raised
    whose message contains that input file and does not depend on the input
    files after it.  In both cases the input files are printed, once, and
    neither [_code] nor the files change. *)
Theorem get_dependencies_resolves (self : ReproChange) (s : State Repo) :
  let inputs := input_files (_state self) in
  ((forall i, In i inputs -> exists d, data_item C i = Resolved d) ->
   get_dependencies C self s =
     mkRes (Ret (resolved C inputs)) s [EvPrintInputFiles inputs]) /\
  (forall before i,
      (forall j, In j before -> exists d, data_item C j = Resolved d) ->
      (forall d, data_item C i <> Resolved d) ->
      exists msg,
        contains i msg /\
        forall after,
          inputs = before ++ i :: after ->
          get_dependencies C self s =
            mkRes (Raise (ReproError ("Run error: " +:+ msg))) s
                  [EvPrintInputFiles inputs]).
Proof.
  intros inputs. split.
  - intros H. unfold get_dependencies. rewrite bind_emit. fold inputs.
    rewrite (get_dependencies_from_resolved inputs [] s H). reflexivity.
  - intros before i Hb Hi.
    destruct (get_dependencies_from_unresolved before i s Hb Hi)
      as (msg & Hc & Hg).
    exists msg. split; [exact Hc |]. intros after Hin.
    unfold get_dependencies. rewrite bind_emit. fold inputs.
    rewrite Hin, Hg. reflexivity.
Qed.


(** *** A dependency that is not a data item *)

(** A target whose state file is well formed but declares an input file
    that is not a data item: its node is constructed and prints its input
    files, no dependency is constructed, git is not asked, nothing is
    removed or run.  The driver logs the error, which contains the input
    file, stops at the target and returns [False]. *)
Theorem unresolved_dependency_stops_the_run
    fuel before d after argv inputs i inputs' (s : State Repo) :
  let rs := item_results C (S fuel) false before s in
  let s1 := last_state s rs in
  let state := load C (state_relative d) (env s1) in
  all_returned rs = true ->
  norm_argv state = Some argv -> (2 <= length argv)%nat ->
  is_reproducible state = true ->
  input_files state = inputs ++ i :: inputs' ->
  (forall j, In j inputs -> exists d', data_item C j = Resolved d') ->
  (forall d', data_item C i <> Resolved d') ->
  exists msg,
    contains i msg /\
    reproduce_item C (S fuel) false d s1 =
      mkRes (Raise (ReproError ("Run error: " +:+ msg)))
            (mkState (env s1) (code_dependencies state))
            [EvLoad (state_relative d) state;
             EvPrintReproduce (data_dvc d);
             EvPrintInputFiles (input_files state)] /\
    repro_data_items C (S fuel) (before ++ d :: after) s =
      mkRes (Ret false) (mkState (env s1) (code_dependencies state))
            (target_events before rs ++
             [EvLoad (state_relative d) state;
              EvPrintReproduce (data_dvc d);
              EvPrintInputFiles (input_files state);
              EvLog Error ("Error in reproducing data file " +:+
                           data_relative d +:+ ": Run error: " +:+ msg)] ++
             errors_occurred C).
Proof.
  intros rs s1 state Hall Ha Hlen Hr Hin Hb Hi.
  destruct (get_dependencies_from_unresolved inputs i
              (mkState (env s1) (code_dependencies state)) Hb Hi)
    as (msg & Hc & Hg).
  exists msg. split; [exact Hc |].
  assert (Hitem : reproduce_item C (S fuel) false d s1 =
      mkRes (Raise (ReproError ("Run error: " +:+ msg)))
            (mkState (env s1) (code_dependencies state))
            [EvLoad (state_relative d) state;
             EvPrintReproduce (data_dvc d);
             EvPrintInputFiles (input_files state)]).
  { rewrite (reproduce_item_Ret (S fuel) false d s1 argv Ha Hlen). cbv zeta.
    fold state.
    rewrite (reproduce_unresolved fuel (mkReproChange d state argv) false
               (mkState (env s1) (code_dependencies state))
               (ReproError ("Run error: " +:+ msg)) Hr).
    - reflexivity.
    - unfold get_dependencies. rewrite bind_emit.
      cbn [_state out]. rewrite Hin, Hg. reflexivity. }
  split; [exact Hitem |].
  assert (Hrd : returned (out (reproduce_item C (S fuel) false d
                                 (last_state s (item_results C (S fuel) false before s))))
                = false).
  { fold rs s1. rewrite Hitem. reflexivity. }
  rewrite (repro_data_items_stopped (S fuel) before d after s Hall Hrd).
  fold rs s1. rewrite Hitem. cbn [out st evs item_log str_exn].
  rewrite <- ?app_assoc. reflexivity.
Qed.

(** *** The readiness of the repository *)

Lemma run_body_after_readiness fuel target (s : State Repo) :
  exists rest,
    evs (run_body C fuel target s) = readiness_check C ++ rest /\
    count is_ready_event rest = 0%nat.
Proof.
  rewrite run_body_spec. unfold readiness_check.
  assert (Hi : forall items,
    count is_ready_event (evs (repro_data_items C fuel items s)) = 0%nat).
  { intros items. apply repro_data_items_count; try reflexivity.
    intros e He. destruct e; try reflexivity; discriminate. }
  destruct (skip_git_actions C); cbn [negb andb].
  - destruct (to_data_items_from C target [] []) as [ex|[items [|f external]]];
      cbv zeta; cbn [evs app]; eexists; (split; [reflexivity |]);
      try reflexivity.
    rewrite count_cons, count_app, Hi.
    destruct (out (repro_data_items C fuel items s)) as [[|]|e|]; reflexivity.
  - destruct (is_ready_to_go C (env s)); cbn [negb].
    + destruct (to_data_items_from C target [] []) as [ex|[items [|f external]]];
        cbv zeta; cbn [evs app]; eexists; (split; [reflexivity |]);
        try reflexivity.
      rewrite count_cons, count_app, Hi.
      destruct (out (repro_data_items C fuel items s)) as [[|]|e|]; reflexivity.
    + cbn [evs]. exists []. split; reflexivity.
Qed.

(** Once the lock is held, the first thing [run] does is to ask git
    whether the repository is ready, unless git actions are skipped, in
    which case it never asks.  It asks once.  When the repository is not
    ready, [run] returns 1 and releases the lock without resolving a
    target. *)
Theorem run_checks_readiness fuel target (s : State Repo) :
  lock_acquire C (lock_file C) 5 (env s) = true ->
  (skip_git_actions C = true ->
   count is_ready_event (evs (run C fuel target s)) = 0%nat) /\
  (skip_git_actions C = false ->
   exists rest,
     evs (run C fuel target s) =
       EvLockAcquire (lock_file C) 5 true :: EvIsReadyToGo :: rest /\
     count is_ready_event rest = 0%nat) /\
  (skip_git_actions C = false -> is_ready_to_go C (env s) = false ->
   run C fuel target s =
     mkRes (Ret 1%Z) s
       [EvLockAcquire (lock_file C) 5 true; EvIsReadyToGo; EvLockRelease]).
Proof.
  intros Hlock. rewrite run_spec. cbv zeta. rewrite Hlock.
  destruct (run_body_after_readiness fuel target s) as (rest & He & Hc).
  split; [| split].
  - intros Hs. unfold readiness_check in He. rewrite Hs in He. cbn [app] in He.
    destruct (out (run_body C fuel target s)); cbn [evs]; rewrite He;
      rewrite ?count_cons, ?count_app, Hc; reflexivity.
  - intros Hs. unfold readiness_check in He. rewrite Hs in He. cbn [app] in He.
    destruct (out (run_body C fuel target s)); cbn [evs]; rewrite He;
      eexists; (split; [reflexivity |]);
      rewrite ?count_app, Hc; reflexivity.
  - intros Hs Hn. rewrite run_body_spec, Hs, Hn. reflexivity.
Qed.

(** *** No target *)

(** With no target at all, [run] resolves the empty list, constructs no
    node, commits nothing and returns 1. *)
Theorem run_without_targets fuel (s : State Repo) :
  lock_acquire C (lock_file C) 5 (env s) = true ->
  skip_git_actions C = true \/ is_ready_to_go C (env s) = true ->
  run C fuel [] s =
    mkRes (Ret 1%Z) s
      (EvLockAcquire (lock_file C) 5 true :: readiness_check C ++
       [EvToDataItems []; EvLockRelease]).
Proof.
  intros Hlock Hready.
  rewrite (run_resolved fuel [] [] s Hlock Hready eq_refl). reflexivity.
Qed.


(** *** A repository in which nothing changed *)

Section Clean.

Variable e : Env Repo.
Hypothesis Hclean : forall path deps, were_files_changed C path deps e = false.

(** What holds of a node, and of a data item, that leaves things as they
    are. *)
Local Notation "'untouched' r" :=
  (env (st r) = e /\ count is_remove (evs r) = 0%nat /\
   count is_run_command (evs r) = 0%nat /\ reported_changed r = false)
  (at level 10, r at level 9).

Lemma clean_items n items :
  (forall d s, env s = e -> untouched (reproduce_item C n false d s)) ->
  forall s, env s = e ->
    let rs := item_results C n false items s in
    env (last_state s rs) = e /\
    count is_remove (all_events rs) = 0%nat /\
    count is_run_command (all_events rs) = 0%nat /\
    any_changed rs = false.
Proof.
  intros Hitem. induction items as [|d rest IH]; intros s Hs.
  - repeat split. exact Hs.
  - cbv zeta. rewrite item_results_cons.
    destruct (Hitem d s Hs) as (He & Hrm & Hrun & Hch).
    set (r := reproduce_item C n false d s) in *.
    rewrite last_state_cons. unfold all_events, any_changed.
    cbn [map concat existsb]. rewrite !count_app, Hrm, Hrun, Hch.
    destruct (returned (out r)).
    + apply (IH (st r) He).
    + repeat split. exact He.
Qed.

Lemma clean_reproduce n :
  forall self s, env s = e -> untouched (reproduce C n self false s).
Proof.
  induction n as [|n IH]; intros self s Hs.
  - repeat split. exact Hs.
  - assert (Hitem : forall d s0, env s0 = e ->
                      untouched (reproduce_item C n false d s0)).
    { intros d s0 Hs0. unfold reproduce_item.
      rewrite (bind_eq _ _ s0 _ (ReproChange_init_spec d s0)). cbv zeta.
      cbn [out st evs].
      destruct (match norm_argv (load C (state_relative d) (env s0)) with
                | Some [] => _ | Some (_ :: _) => _ | None => _ end)
        as [change|ex|]; cbn [st evs env]; try (repeat split; exact Hs0).
      destruct (IH change (mkState (env s0)
                  (code_dependencies (load C (state_relative d) (env s0))))
                  Hs0) as (He & Hrm & Hrun & Hch).
      rewrite !count_app, Hrm, Hrun. repeat split; assumption. }
    destruct (is_reproducible (_state self)) eqn:Hr.
    + destruct (out (get_dependencies C self s)) as [deps|ex|] eqn:Hd.
      * rewrite (reproduce_reproducible n self false s deps Hr Hd). cbv zeta.
        destruct (clean_items n deps Hitem s Hs) as (He & Hrm & Hrun & Hch).
        cbv zeta in He, Hrm, Hrun, Hch.
        rewrite He, Hclean, Hch. cbn [negb andb].
        destruct (last_out (item_results C n false deps s)); cbn [st evs];
          rewrite ?count_app, Hrm, Hrun; repeat split; assumption.
      * rewrite (reproduce_unresolved n self false s ex Hr Hd).
        repeat split. exact Hs.
      * exfalso. unfold get_dependencies in Hd. rewrite bind_emit in Hd.
        cbn [out] in Hd. exact (get_dependencies_from_fuel _ _ _ Hd).
    + rewrite (reproduce_not_reproducible n self false s Hr).
      repeat split. exact Hs.
Qed.

Lemma clean_reproduce_item n d s :
  env s = e -> untouched (reproduce_item C n false d s).
Proof.
  intros Hs. unfold reproduce_item.
  rewrite (bind_eq _ _ s _ (ReproChange_init_spec d s)). cbv zeta.
  cbn [out st evs].
  destruct (match norm_argv (load C (state_relative d) (env s)) with
            | Some [] => _ | Some (_ :: _) => _ | None => _ end)
    as [change|ex|]; cbn [st evs env]; try (repeat split; exact Hs).
  destruct (clean_reproduce n change (mkState (env s)
              (code_dependencies (load C (state_relative d) (env s)))) Hs)
    as (He & Hrm & Hrun & Hch).
  rewrite !count_app, Hrm, Hrun. repeat split; assumption.
Qed.

End Clean.

(** The per-target lines apart, the driver's loop adds nothing to what
    the nodes do. *)
Lemma target_events_count_nodes p fuel items (s : State Repo) :
  (forall l m, p (EvLog l m) = false) ->
  count p (target_events items (item_results C fuel false items s)) =
    count p (all_events (item_results C fuel false items s)).
Proof.
  intros Hl. revert s. induction items as [|d rest IH]; intros s.
  - reflexivity.
  - rewrite item_results_cons. unfold all_events.
    cbn [target_events map concat]. rewrite !count_app.
    rewrite (item_log_count p d _ Hl).
    destruct (returned (out (reproduce_item C fuel false d s))).
    + rewrite IH. reflexivity.
    + rewrite target_events_nil_r. reflexivity.
Qed.

(** When git reports no change for any path, [reproduce] without [force]
    leaves the files and the repository as they are, at every depth of the
    recursion: it removes nothing, runs no command, and does not report a
    change (it returns [False], or an error of a state file or of a
    dependency leaves it). *)
Theorem unchanged_node_is_left_alone n (self : ReproChange) (s : State Repo) :
  (forall path deps, were_files_changed C path deps (env s) = false) ->
  let r := reproduce C n self false s in
  env (st r) = env s /\
  count is_remove (evs r) = 0%nat /\
  count is_run_command (evs r) = 0%nat /\
  out r <> Ret true.
Proof.
  intros Hclean r.
  destruct (clean_reproduce (env s) Hclean n self s eq_refl)
    as (He & Hrm & Hrun & Hch).
  fold r in He, Hrm, Hrun, Hch. repeat split; try assumption.
  intros Ho. unfold reported_changed in Hch. rewrite Ho in Hch. discriminate.
Qed.

(** When git reports no change for any path, [run] changes neither the
    files nor the repository, commits nothing, and does not return 0,
    whatever the targets are. *)
Theorem unchanged_repository_is_left_alone fuel target (s : State Repo) :
  (forall path deps, were_files_changed C path deps (env s) = false) ->
  let r := run C fuel target s in
  env (st r) = env s /\
  count is_remove (evs r) = 0%nat /\
  count is_run_command (evs r) = 0%nat /\
  count is_commit (evs r) = 0%nat /\
  out r <> Ret 0%Z.
Proof.
  intros Hclean r.
  assert (Hbody :
    env (st (run_body C fuel target s)) = env s /\
    count is_remove (evs (run_body C fuel target s)) = 0%nat /\
    count is_run_command (evs (run_body C fuel target s)) = 0%nat /\
    count is_commit (evs (run_body C fuel target s)) = 0%nat /\
    out (run_body C fuel target s) <> Ret 0%Z).
  { rewrite run_body_spec.
    assert (Hrc : forall p, p EvIsReadyToGo = false ->
                            count p (readiness_check C) = 0%nat)
      by (intros p; apply readiness_check_count).
    destruct (negb (skip_git_actions C) && negb (is_ready_to_go C (env s)));
      [repeat split; discriminate |].
    destruct (to_data_items_from C target [] []) as [ex|[items [|f external]]];
      cbv zeta; cbn [out st evs];
      rewrite ?count_app, ?count_cons, ?count_app, !Hrc by reflexivity;
      try (repeat split; discriminate).
    rewrite repro_data_items_spec. cbv zeta. cbn [out st evs].
    destruct (clean_items (env s) fuel items
                (fun d s0 H => clean_reproduce_item (env s) Hclean fuel d s0 H)
                s eq_refl) as (He & Hrm & Hrun & Hch).
    cbv zeta in He, Hrm, Hrun, Hch. rewrite Hch, !count_app.
    assert (Hcm : count is_commit
              (target_events items (item_results C fuel false items s)) = 0%nat).
    { apply target_events_count; try reflexivity.
      intros x Hx. destruct x; try reflexivity; discriminate. }
    rewrite Hcm.
    rewrite !(target_events_count_nodes _ fuel items s) by reflexivity.
    rewrite Hrm, Hrun.
    assert (Herr : forall p, (forall l m, p (EvLog l m) = false) ->
              p EvNotCommittedWarning = false ->
              count p match last_out (item_results C fuel false items s) with
                      | Raise (ReproError _) => errors_occurred C
                      | _ => []
                      end = 0%nat).
    { intros p Hl Hw.
      destruct (last_out (item_results C fuel false items s)) as [b|[m|f|m]|];
        try reflexivity. apply errors_occurred_count; assumption. }
    rewrite !Herr by reflexivity.
    destruct (last_out (item_results C fuel false items s)) as [b|[m|f|m]|];
      cbn [is_remove is_run_command is_commit]; repeat split;
      try assumption; discriminate. }
  destruct Hbody as (He & Hrm & Hrun & Hcm & Ho).
  subst r. rewrite run_spec. cbv zeta.
  destruct (lock_acquire C (lock_file C) 5 (env s));
    [| repeat split; discriminate].
  destruct (out (run_body C fuel target s)) as [z|ex|] eqn:E; cbn [out st evs];
    rewrite ?count_cons, ?count_app, Hrm, Hrun, Hcm; repeat split;
    try assumption; try discriminate.
Qed.


(** *** A command that reports a failure *)

(** When the command of a target is re-run and reports a failure (it
    returns [False] rather than raising), the output was removed and the
    command was run, yet the driver treats the target as one that needed
    no reproduction: the line it logs says so, no error is logged, no
    warning is given and [repro_data_items] returns [False]. *)
Theorem failed_command_is_not_an_error fuel d argv deps e' (s : State Repo) :
  let state := load C (state_relative d) (env s) in
  let self := mkReproChange d state argv in
  let s0 := mkState (env s) (code_dependencies state) in
  let rs := item_results C fuel false deps s0 in
  let s1 := last_state s0 rs in
  let path := data_relative d in
  let r := repro_data_items C (S fuel) [d] s in
  norm_argv state = Some argv -> (2 <= length argv)%nat ->
  is_reproducible state = true ->
  out (get_dependencies C self s0) = Ret deps ->
  all_returned rs = true ->
  were_files_changed C path (code_dependencies state) (env s1)
    || any_changed rs = true ->
  path ∈ files (env s1) ->
  run_command C argv (data_items_from_args C argv)
    (mkEnv (files (env s1) ∖ {[path]}) (repo (env s1))) = (inr false, e') ->
  out r = Ret false /\
  env (st r) = e' /\
  count is_error_log (evs r) = 0%nat /\
  count is_warning (evs r) = 0%nat /\
  exists before,
    evs r =
      before ++
      [EvRemove path;
       EvLog Debug ("Reproducing data file " +:+ dq +:+ path +:+ dq +:+
                    ". Re-runs cmd: " +:+ join " " argv);
       EvRunCommand argv (data_items_from_args C argv);
       EvLog Info ("Reproduction is not required for data file " +:+ dq +:+
                   path +:+ dq +:+ ".")] /\
    count is_error_log before = 0%nat.
Proof.
  intros state self s0 rs s1 path r Ha Hlen Hr Hd Hall Hgo Hin Hrun.
  pose proof (reproduce_regenerated fuel self false s0 deps false e'
                Hr Hd Hall Hgo Hin Hrun) as Hnode.
  cbv zeta in Hnode. fold rs s1 path in Hnode.
  pose proof (reproduce_item_Ret (S fuel) false d s argv Ha Hlen) as Hitem.
  cbv zeta in Hitem. fold state self s0 in Hitem. rewrite Hnode in Hitem.
  cbn [out st evs] in Hitem.
  assert (Hrs : count is_error_log (all_events rs) = 0%nat).
  { apply (node_events_count is_error_log _ node_event_not_error_log).
    apply item_results_events. apply reproduce_events. }
  assert (Hrw : count is_warning (all_events rs) = 0%nat).
  { apply node_events_count.
    - intros x Hx. destruct x; try reflexivity; discriminate.
    - apply item_results_events. apply reproduce_events. }
  assert (Heq : r = mkRes (Ret false) (mkState e' (code s1))
    ((EvLoad (state_relative d) state :: prologue self ++ all_events rs ++
      [EvWereFilesChanged path (code_dependencies state)
         (were_files_changed C path (code_dependencies state) (env s1));
       EvLog Debug ("Reproducing data file " +:+ dq +:+ path +:+ dq +:+
                    ". Removing the file...")]) ++
     [EvRemove path;
      EvLog Debug ("Reproducing data file " +:+ dq +:+ path +:+ dq +:+
                   ". Re-runs cmd: " +:+ join " " argv);
      EvRunCommand argv (data_items_from_args C argv);
      EvLog Info ("Reproduction is not required for data file " +:+ dq +:+
                  path +:+ dq +:+ ".")])).
  { subst r. rewrite repro_data_items_spec. cbv zeta.
    rewrite item_results_cons, Hitem.
    cbn [out st evs returned item_results last_out last_state map List.last
         any_changed existsb reported_changed target_events item_log].
    rewrite !app_nil_r. cbn [app]. rewrite <- !app_assoc. reflexivity. }
  rewrite Heq. cbn [out st evs env]. repeat split.
  - rewrite !count_app, !count_cons, !count_app, Hrs. reflexivity.
  - rewrite !count_app, !count_cons, !count_app, Hrw. reflexivity.
  - eexists. split; [reflexivity |].
    rewrite !count_cons, !count_app, Hrs. reflexivity.
Qed.

(** *** The lines about the targets *)

(** [repro_data_items] logs one line at the info level for every target
    that returns, and none for a target that raises: there are as many as
    there are targets when all of them return, and the line of a target
    says that it was reproduced exactly when the target reported so. *)
Theorem one_info_line_per_target fuel items (s : State Repo) :
  let rs := item_results C fuel false items s in
  let r := repro_data_items C fuel items s in
  count is_info_log (evs r) = length (List.filter (fun x => returned (out x)) rs) /\
  (all_returned rs = true -> count is_info_log (evs r) = length items) /\
  (forall d x, In (d, x) (combine items rs) -> forall b, out x = Ret b ->
     In (EvLog Info
           (if b
            then "Data file " +:+ dq +:+ data_relative d +:+ dq +:+
                 " was reproduced."
            else "Reproduction is not required for data file " +:+ dq +:+
                 data_relative d +:+ dq +:+ "."))
        (evs r)).
Proof.
  intros rs r.
  assert (Hn : forall x, node_event x = true -> is_info_log x = false).
  { intros x Hx. destruct x as [| | | | | | | | | |[| |] m| | | |];
      try reflexivity; discriminate. }
  assert (Hev : evs r = target_events items rs ++
                match last_out rs with
                | Raise (ReproError _) => errors_occurred C
                | _ => []
                end).
  { subst r. rewrite repro_data_items_spec. reflexivity. }
  assert (Herr : count is_info_log
                   match last_out rs with
                   | Raise (ReproError _) => errors_occurred C
                   | _ => []
                   end = 0%nat).
  { destruct (last_out rs) as [b|[m|f|m]|]; try reflexivity.
    unfold errors_occurred. destruct (skip_git_actions C); reflexivity. }
  assert (Hcount : count is_info_log (target_events items rs) =
                   length (List.filter (fun x => returned (out x)) rs)).
  { subst rs. clear Hev Herr r. revert s.
    induction items as [|d rest IH]; intros s; [reflexivity |].
    rewrite item_results_cons. cbn [target_events List.filter].
    rewrite !count_app.
    rewrite (node_events_count is_info_log _ Hn
               (reproduce_item_events fuel false d s)).
    destruct (out (reproduce_item C fuel false d s)) as [[|]|[m|f|m]|];
      cbn [returned item_log length]; rewrite ?target_events_nil_r, ?IH;
      reflexivity. }
  split; [| split].
  - rewrite Hev, count_app, Herr, Hcount. lia.
  - intros Hall. rewrite Hev, count_app, Herr, Hcount.
    rewrite <- (all_returned_length fuel false items s Hall). fold rs.
    unfold all_returned in Hall.
    assert (Hf : forall l : list (Res Repo bool),
              forallb (fun x => returned (out x)) l = true ->
              List.filter (fun x => returned (out x)) l = l).
    { induction l as [|x l IHl]; [reflexivity |]. cbn [forallb List.filter].
      intros H. apply andb_prop in H. destruct H as [Hx Hl].
      rewrite Hx, (IHl Hl). reflexivity. }
    rewrite (Hf rs Hall). lia.
  - intros d x Hin b Hb. rewrite Hev. apply in_or_app. left.
    subst rs. clear Hev Herr Hcount r. revert s Hin.
    induction items as [|d0 rest IH]; intros s Hin; [destruct Hin |].
    rewrite item_results_cons in Hin. cbn [combine] in Hin.
    rewrite item_results_cons. cbn [target_events].
    destruct Hin as [Heq | Hin].
    + injection Heq as -> ->. apply in_or_app. right. apply in_or_app. left.
      rewrite Hb. destruct b; left; reflexivity.
    + apply in_or_app. right. apply in_or_app. right.
      destruct (returned (out (reproduce_item C fuel false d0 s))).
      * apply (IH _ Hin).
      * destruct rest; destruct Hin.
Qed.


(** *** How deep the recursion goes *)

Lemma reproduce_data_file_returns (self : ReproChange) (s : State Repo) :
  out (reproduce_data_file C self s) <> OutOfFuel.
Proof.
  destruct (decide (data_relative (_data_item self) ∈ files (env s))) as [Hin|Hn].
  - rewrite (reproduce_data_file_present self s Hin). cbn [out].
    destruct (fst _); discriminate.
  - rewrite (reproduce_data_file_absent self s Hn). discriminate.
Qed.

(** A dependency is the data item of some input file. *)
Lemma get_dependencies_from_In inputs acc (s : State Repo) deps :
  out (get_dependencies_from C inputs acc s) = Ret deps ->
  forall d, In d deps ->
    In d acc \/ exists i, In i inputs /\ data_item C i = Resolved d.
Proof.
  revert acc. induction inputs as [|i rest IH]; intros acc H d Hd.
  - cbn in H. injection H as <-. left. exact Hd.
  - cbn [get_dependencies_from] in H.
    destruct (data_item C i) as [d0| |ex] eqn:E; try discriminate.
    destruct (IH _ H d Hd) as [Hacc | (j & Hj & Hr)].
    + apply in_app_or in Hacc. destruct Hacc as [Hacc | [<- | []]].
      * left. exact Hacc.
      * right. exists i. split; [left; reflexivity | exact E].
    + right. exists j. split; [right; exact Hj | exact Hr].
Qed.

Lemma item_results_return n force items (s : State Repo) :
  (forall d s0, In d items -> out (reproduce_item C n force d s0) <> OutOfFuel) ->
  last_out (item_results C n force items s) <> OutOfFuel.
Proof.
  revert s. induction items as [|d rest IH]; intros s H; [discriminate |].
  rewrite item_results_cons, last_out_cons.
  pose proof (H d s (or_introl eq_refl)) as Hd.
  destruct (returned (out (reproduce_item C n force d s))) eqn:E.
  - destruct (item_results C n force rest (st (reproduce_item C n force d s)))
      as [|r' rs'] eqn:Ers; [exact Hd |].
    rewrite <- Ers. apply IH. intros d' s0 Hin. apply H. right. exact Hin.
  - exact Hd.
Qed.

(** The data items [to_data_items] returns are those of the targets. *)
Lemma to_data_items_from_resolved targets result external items external' :
  to_data_items_from C targets result external = inr (items, external') ->
  items = result ++ resolved C targets.
Proof.
  revert result external.
  induction targets as [|t rest IH]; intros result external H.
  - cbn in H. injection H as <- <-. cbn. rewrite app_nil_r. reflexivity.
  - cbn [to_data_items_from] in H. unfold resolved. cbn [omap].
    destruct (data_item C t) as [d| |ex] eqn:E; try discriminate.
    + rewrite (IH _ _ H). unfold resolved. cbn. rewrite E.
      rewrite <- app_assoc. reflexivity.
    + rewrite (IH _ _ H). unfold resolved. cbn. rewrite E. reflexivity.
Qed.

Section Acyclic.

Variable rank : DataItem -> nat.
Hypothesis Hrank :
  forall e d i d',
    In i (input_files (load C (state_relative d) e)) ->
    data_item C i = Resolved d' ->
    (rank d' < rank d)%nat.

Lemma acyclic_reproduce_item n :
  forall force d (s : State Repo),
    (rank d < n)%nat -> out (reproduce_item C n force d s) <> OutOfFuel.
Proof.
  induction n as [|n IH]; intros force d s Hlt; [lia |].
  unfold reproduce_item.
  rewrite (bind_eq _ _ s _ (ReproChange_init_spec d s)). cbv zeta.
  cbn [out st evs].
  set (state := load C (state_relative d) (env s)).
  set (s0 := mkState (env s) (code_dependencies state)).
  assert (Hnode : forall argv,
    out (reproduce C (S n) (mkReproChange d state argv) force s0) <> OutOfFuel).
  { intros argv.
    destruct (is_reproducible state) eqn:Hr.
    - destruct (out (get_dependencies C (mkReproChange d state argv) s0))
        as [deps|ex|] eqn:Hd.
      + rewrite (reproduce_reproducible n (mkReproChange d state argv) force s0 deps Hr Hd). cbv zeta.
        assert (Hrs : last_out (item_results C n force deps s0) <> OutOfFuel).
        { apply item_results_return. intros d' s1 Hin. apply IH.
          unfold get_dependencies in Hd. rewrite bind_emit in Hd.
          cbn [out _state] in Hd.
          destruct (get_dependencies_from_In _ _ _ _ Hd d' Hin)
            as [[] | (i & Hi & Hres)].
          pose proof (Hrank (env s) d i d' Hi Hres). lia. }
        destruct (last_out (item_results C n force deps s0)) as [b|ex|];
          [| discriminate | contradiction].
        destruct (negb force && _ && _); cbn [out];
          [discriminate | apply reproduce_data_file_returns].
      + rewrite (reproduce_unresolved n (mkReproChange d state argv) force s0 ex Hr Hd). discriminate.
      + exfalso. unfold get_dependencies in Hd. rewrite bind_emit in Hd.
        cbn [out] in Hd. exact (get_dependencies_from_fuel _ _ _ Hd).
    - rewrite (reproduce_not_reproducible n (mkReproChange d state argv) force s0 Hr). discriminate. }
  destruct (norm_argv state) as [[|a [|b l]]|]; cbn [length Nat.ltb Nat.leb out];
    try discriminate.
  apply Hnode.
Qed.

End Acyclic.

(** When the declared dependencies are acyclic, in that some rank of the
    data items decreases along every one of them, the recursion of
    [reproduce] is no deeper than the rank: reproducing a data item comes
    back, with a result or with an exception, as soon as the depth allowed
    exceeds its rank, and so does a run over targets of smaller rank, which
    then releases the lock. *)
Theorem acyclic_dependencies_terminate (rank : DataItem -> nat) :
  (forall e d i d',
      In i (input_files (load C (state_relative d) e)) ->
      data_item C i = Resolved d' ->
      (rank d' < rank d)%nat) ->
  (forall n force d (s : State Repo),
      (rank d < n)%nat -> out (reproduce_item C n force d s) <> OutOfFuel) /\
  (forall n target (s : State Repo),
      (forall d, In d (resolved C target) -> (rank d < n)%nat) ->
      out (run C n target s) <> OutOfFuel /\
      (lock_acquire C (lock_file C) 5 (env s) = true ->
       List.last (evs (run C n target s)) EvIsReadyToGo = EvLockRelease)).
Proof.
  intros Hrank. split.
  - intros n. apply (acyclic_reproduce_item rank Hrank n).
  - intros n target s Hlt.
    assert (Hbody : out (run_body C n target s) <> OutOfFuel).
    { rewrite run_body_spec.
      destruct (negb (skip_git_actions C) && negb (is_ready_to_go C (env s)));
        [discriminate |].
      destruct (to_data_items_from C target [] []) as [ex|[items [|f external]]]
        eqn:Ht; cbv zeta; cbn [out]; try discriminate.
      rewrite repro_data_items_spec. cbv zeta. cbn [out].
      assert (Hrs : last_out (item_results C n false items s) <> OutOfFuel).
      { apply item_results_return. intros d s0 Hin.
        apply (acyclic_reproduce_item rank Hrank n). apply Hlt.
        rewrite (to_data_items_from_resolved _ _ _ _ _ Ht) in Hin. exact Hin. }
      destruct (last_out (item_results C n false items s)) as [b|[m|f|m]|];
        try discriminate; try contradiction.
      destruct (any_changed _); discriminate. }
    rewrite run_spec. cbv zeta.
    destruct (lock_acquire C (lock_file C) 5 (env s)).
    + destruct (out (run_body C n target s)) as [z|ex|] eqn:E;
        try contradiction; cbn [out evs];
        (split; [discriminate | intros _]);
        rewrite app_comm_cons; apply last_last.
    + split; [discriminate | discriminate].
Qed.

End Proofs.

(** ** The small repository, run *)

(** The claims at work on the repository of [Demo], and the runs on which
    the statements that had to be amended fail as first written. *)

Lemma in_set_by_computation (x : string) (X : gset string) :
  bool_decide (x ∈ X) = true -> x ∈ X.
Proof. intros H. exact (proj1 (bool_decide_eq_true _) H). Qed.

Lemma not_in_set_by_computation (x : string) (X : gset string) :
  bool_decide (x ∈ X) = false -> x ∉ X.
Proof. intros H. exact (proj1 (bool_decide_eq_false _) H). Qed.

(** [b] is regenerated because its child [c] was. *)
Lemma reproduce_decision_witness :
  count is_remove
    (evs (reproduce Demo.git 3 (Demo.node "b") false
            (Demo.constructed "b" Demo.c_changed))) =
  (count is_remove
     (all_events (item_results Demo.git 2 false [Demo.item "c"]
                    (Demo.constructed "b" Demo.c_changed))) + 1)%nat.
Proof.
  destruct (reproduce_decision Demo.git 2 (Demo.node "b") false
              (Demo.constructed "b" Demo.c_changed)) as (_ & _ & H).
  destruct (H [Demo.item "c"]) as (Hall & _);
    [reflexivity | vm_compute; reflexivity |].
  destruct Hall as (_ & _ & Hcount); [vm_compute; reflexivity |].
  exact Hcount.
Defined.

(** [t] is reproducible and its child [c] reports that it was regenerated,
    yet [t] is not: the constructor of its second child raises. *)
Lemma reproduce_decision_counterexample :
  is_reproducible (_state (Demo.node "t")) = true /\
  out (reproduce_item Demo.git 4 false (Demo.item "c")
         (Demo.constructed "t" Demo.c_changed)) = Ret true /\
  List.filter is_remove
    (evs (reproduce Demo.git 5 (Demo.node "t") false
            (Demo.constructed "t" Demo.c_changed))) = [EvRemove "data/c"] /\
  commands_run
    (evs (reproduce Demo.git 5 (Demo.node "t") false
            (Demo.constructed "t" Demo.c_changed))) =
    [["python"; "code/c.py"; "data/c"]] /\
  returned (out (reproduce Demo.git 5 (Demo.node "t") false
                   (Demo.constructed "t" Demo.c_changed))) = false.
Proof. vm_compute. repeat split. Qed.

(** The chain [a], [b], [c] of the repository. *)
Lemma children_reproduced_in_order_witness :
  out (reproduce_item Demo.git 1 false (Demo.item "c")
         (Demo.constructed "b" Demo.c_changed)) = Ret true /\
  out (reproduce_item Demo.git 2 false (Demo.item "b")
         (Demo.constructed "a" Demo.c_changed)) = Ret true /\
  out (reproduce Demo.git 3 (Demo.node "a") false
         (Demo.constructed "a" Demo.c_changed)) = Ret true /\
  exists a1 a2,
    evs (reproduce Demo.git 3 (Demo.node "a") false
           (Demo.constructed "a" Demo.c_changed)) =
      a1 ++
      evs (reproduce_item Demo.git 2 false (Demo.item "b")
             (Demo.constructed "a" Demo.c_changed)) ++
      a2 ++ regeneration Demo.git (Demo.node "a").
Proof.
  destruct (children_reproduced_in_order Demo.git) as (_ & _ & _ & H).
  destruct (H 0%nat (Demo.node "a") (Demo.constructed "a" Demo.c_changed)
              [] (Demo.item "b") []
              ["python"; "code/b.py"; "data/c"; "data/b"]
              [] (Demo.item "c") []
              ["python"; "code/c.py"; "data/c"] []
              (env Demo.c_changed) (env Demo.c_changed) (env Demo.c_changed))
    as (Hc & Hb & Ha & _ & _ & _ & _ & _ & Hev);
    try reflexivity; try (cbn; lia);
    try (apply in_set_by_computation; vm_compute; reflexivity);
    try (vm_compute; reflexivity).
  split; [exact Hc |]. split; [exact Hb |]. split; [exact Ha | exact Hev].
Defined.

(** [raw] declares the input [data/c], whose script changed, but it is not
    reproducible: no child is constructed and nothing is run, while [c] on
    its own would be regenerated.  And along the chain [a2], [b], [c],
    with the script of [c] changed, [c] and [b] are regenerated but [a2]
    is not: the constructor of its second input raises. *)
Lemma children_reproduced_in_order_counterexample :
  (input_files (_state (Demo.node "raw")) = ["data/c"] /\
   out (reproduce_item Demo.git 4 false (Demo.item "c")
          (Demo.constructed "raw" Demo.c_changed)) = Ret true /\
   reproduce Demo.git 5 (Demo.node "raw") false
     (Demo.constructed "raw" Demo.c_changed) =
     mkRes (Ret false) (Demo.constructed "raw" Demo.c_changed)
       [EvPrintReproduce "raw";
        EvLog Debug ("Data file " +:+ dq +:+ "data/raw" +:+ dq +:+
                     " is not reproducible")] /\
   count is_load
     (evs (reproduce Demo.git 5 (Demo.node "raw") false
             (Demo.constructed "raw" Demo.c_changed))) = 0%nat) /\
  (input_files (_state Demo.node_a2) = ["data/b"; "data/short"] /\
   is_reproducible (_state Demo.node_a2) = true /\
   out (reproduce_item Demo.git_more 4 false (Demo.item "b")
          (mkState (env Demo.c_changed) ["code/a2.py"])) = Ret true /\
   commands_run
     (evs (reproduce Demo.git_more 5 Demo.node_a2 false
             (mkState (env Demo.c_changed) ["code/a2.py"]))) =
     [["python"; "code/c.py"; "data/c"];
      ["python"; "code/b.py"; "data/c"; "data/b"]] /\
   List.filter is_remove
     (evs (reproduce Demo.git_more 5 Demo.node_a2 false
             (mkState (env Demo.c_changed) ["code/a2.py"]))) =
     [EvRemove "data/c"; EvRemove "data/b"] /\
   returned (out (reproduce Demo.git_more 5 Demo.node_a2 false
                    (mkState (env Demo.c_changed) ["code/a2.py"]))) = false).
Proof. repeat split; vm_compute; reflexivity. Qed.

(** A run that reproduces [a] commits once and returns 0. *)
Lemma run_commits_iff_changed_witness :
  out (run Demo.git 5 ["data/a"] Demo.c_changed) = Ret 0%Z /\
  count is_commit (evs (run Demo.git 5 ["data/a"] Demo.c_changed)) = 1%nat.
Proof.
  destruct (run_commits_iff_changed Demo.git 5 ["data/a"] [Demo.item "a"]
              Demo.c_changed) as (H & _);
    [reflexivity | right; reflexivity | vm_compute; reflexivity |].
  apply H. split; vm_compute; reflexivity.
Defined.

(** [manual] is not reproducible and has no command: the constructor
    raises, and names the state file. *)
Lemma malformed_state_raises_witness :
  exists msg,
    out (ReproChange_init Demo.git (Demo.item "manual") Demo.clean) =
      Raise (ReproError msg) /\
    contains "state/manual" msg /\
    is_reproducible
      (load Demo.git (state_relative (Demo.item "manual")) (env Demo.clean)) = false.
Proof.
  destruct (malformed_state_raises Demo.git (Demo.item "manual") Demo.clean)
    as (msg & Hinit & Hmsg & _); [left; reflexivity |].
  exists msg. split; [rewrite Hinit; reflexivity |].
  split; [exact Hmsg | reflexivity].
Defined.


(** Two of three targets lie outside of the data directory; both are
    named. *)
Lemma run_external_targets_witness :
  out (run Demo.git 5 ["data/a"; "/tmp/x"; "other/y"] Demo.clean) = Ret 1%Z /\
  contains "/tmp/x"
    (external_files_message Demo.git ["/tmp/x"; "other/y"]) /\
  contains "other/y"
    (external_files_message Demo.git ["/tmp/x"; "other/y"]).
Proof.
  destruct (run_external_targets Demo.git 5 ["data/a"; "/tmp/x"; "other/y"]
              Demo.clean) as (Hr & Hc & _);
    [reflexivity | right; reflexivity | reflexivity | reflexivity |].
  split; [rewrite Hr; reflexivity |].
  split; apply Hc; try reflexivity; cbn; tauto.
Defined.

(** With git actions: [c] is reproduced, [noargv] raises, [u] is not
    attempted, and the warning is given. *)
Lemma repro_error_stops_the_run_witness :
  item_results Demo.git 5 false
    [Demo.item "c"; Demo.item "noargv"; Demo.item "u"] Demo.c_changed =
    item_results Demo.git 5 false [Demo.item "c"] Demo.c_changed ++
    [reproduce_item Demo.git 5 false (Demo.item "noargv")
       (last_state Demo.c_changed
          (item_results Demo.git 5 false [Demo.item "c"] Demo.c_changed))] /\
  count is_warning
    (evs (repro_data_items Demo.git 5
            [Demo.item "c"; Demo.item "noargv"; Demo.item "u"] Demo.c_changed)) =
    1%nat.
Proof.
  destruct (repro_error_stops_the_run Demo.git 5 [Demo.item "c"]
              (Demo.item "noargv") [Demo.item "u"] (Demo.no_command "noargv")
              Demo.c_changed) as (_ & Hi & Hw & _);
    [vm_compute; reflexivity | vm_compute; reflexivity |].
  split; [exact Hi | exact Hw].
Defined.

(** With [skip_git_actions], a target that raises a [ReproError] is
    reported, but no warning is given. *)
Lemma repro_error_stops_the_run_counterexample :
  skip_git_actions Demo.nogit = true /\
  out (reproduce_item Demo.nogit 5 false (Demo.item "noargv") Demo.clean) =
    Raise (ReproError (Demo.no_command "noargv")) /\
  out (run Demo.nogit 5 ["data/noargv"] Demo.clean) = Ret 1%Z /\
  count is_error_log (evs (run Demo.nogit 5 ["data/noargv"] Demo.clean)) = 1%nat /\
  count is_warning (evs (run Demo.nogit 5 ["data/noargv"] Demo.clean)) = 0%nat.
Proof. repeat split; vm_compute; reflexivity. Qed.

(** [b] asks git once, after its child [c] is done. *)
Lemma change_detector_after_children_witness :
  exists tail,
    evs (reproduce Demo.git 3 (Demo.node "b") false
           (Demo.constructed "b" Demo.c_changed)) =
      prologue (Demo.node "b") ++
      all_events (item_results Demo.git 2 false [Demo.item "c"]
                    (Demo.constructed "b" Demo.c_changed)) ++
      EvWereFilesChanged "data/b" ["code/b.py"] false :: tail /\
    count is_were_files_changed tail = 0%nat.
Proof.
  destruct (change_detector_after_children Demo.git 2 (Demo.node "b") false
              (Demo.constructed "b" Demo.c_changed)) as (_ & _ & H).
  destruct (H [Demo.item "c"]) as (Hall & _);
    [reflexivity | vm_compute; reflexivity |].
  destruct Hall as (tail & He & _ & Ht); [vm_compute; reflexivity |].
  exists tail. split; [exact He | exact Ht].
Defined.

(** [raw] is not reproducible: git is not asked, even with [force]. *)
Lemma change_detector_after_children_counterexample :
  count is_were_files_changed
    (evs (reproduce Demo.git 5 (Demo.node "raw") true
            (Demo.constructed "raw" Demo.c_changed))) = 0%nat /\
  out (reproduce Demo.git 5 (Demo.node "raw") true
         (Demo.constructed "raw" Demo.c_changed)) = Ret false.
Proof. split; vm_compute; reflexivity. Qed.

(** After [a] was reproduced, [_code] is that of the node loaded last. *)
Lemma code_is_of_the_last_node_witness :
  exists f,
    last_loaded (evs (reproduce_item Demo.git 5 false (Demo.item "a")
                        Demo.c_changed)) = Some f /\
    code (st (reproduce_item Demo.git 5 false (Demo.item "a") Demo.c_changed)) =
      code_dependencies f.
Proof.
  destruct (code_is_of_the_last_node Demo.git) as (_ & H & _).
  exact (H 5%nat false (Demo.item "a") Demo.c_changed).
Defined.

(** A run on [a] constructs the nodes of [a], [b] and [c], whose code
    dependencies are three scripts; at the end [_code] holds only that of
    [c]. *)
Lemma code_is_of_the_last_node_counterexample :
  List.filter is_load (evs (run Demo.git 5 ["data/a"] Demo.c_changed)) =
    [EvLoad "state/a" (Demo.state_of "a");
     EvLoad "state/b" (Demo.state_of "b");
     EvLoad "state/c" (Demo.state_of "c")] /\
  code_dependencies (Demo.state_of "a") = ["code/a.py"] /\
  code_dependencies (Demo.state_of "b") = ["code/b.py"] /\
  code (st (run Demo.git 5 ["data/a"] Demo.c_changed)) = ["code/c.py"].
Proof. repeat split; vm_compute; reflexivity. Qed.

(** The script of [u] changed and [data/u] is not on disk: the removal
    raises, the exception leaves [run], and the lock is released. *)
Lemma missing_output_escapes_witness :
  out (run Demo.git 5 ["data/u"] Demo.u_missing) = Raise (OSError "data/u") /\
  exists body,
    evs (run Demo.git 5 ["data/u"] Demo.u_missing) =
      EvLockAcquire ".dvc.lock" 5 true :: body ++ [EvLockRelease] /\
    count is_error_log body = 0%nat /\
    count is_warning body = 0%nat /\
    count is_commit body = 0%nat.
Proof.
  destruct (missing_output_escapes Demo.git) as (_ & _ & H).
  destruct (H 5%nat [] (Demo.item "u") [] "data/u" Demo.u_missing)
    as (_ & _ & _ & Hrun);
    [reflexivity | vm_compute; reflexivity |].
  apply (Hrun ["data/u"]);
    [reflexivity | right; reflexivity | vm_compute; reflexivity].
Defined.

(** *** The further properties on the small repository *)

(** In [clean] git reports no change, whatever it is asked about. *)
Lemma Demo_clean_unchanged path deps :
  were_files_changed Demo.git path deps (env Demo.clean) = false.
Proof.
  cbn [were_files_changed Demo.git Demo.collab].
  generalize (path :: deps). intros l.
  induction l as [|p l IH]; [reflexivity |].
  cbn [existsb]. rewrite IH, orb_false_r.
  apply bool_decide_eq_false. cbn. apply not_elem_of_empty.
Qed.

(** Without [loop], every declared dependency lowers the rank. *)
Lemma Demo_rank_decreases (e : Env Demo.Repo) d i d' :
  In i (input_files (load Demo.acyclic (state_relative d) e)) ->
  data_item Demo.acyclic i = Resolved d' ->
  (Demo.rank d' < Demo.rank d)%nat.
Proof.
  cbn [load data_item Demo.acyclic].
  destruct d as [dr dd sr]. cbn [state_relative].
  destruct (delete "state/loop" Demo.states !! sr) as [stf|] eqn:E;
    cbn [default]; [| intros []].
  apply lookup_delete_Some in E. destruct E as [Hne E].
  apply elem_of_list_to_map_2 in E.
  repeat (apply elem_of_cons in E; destruct E as [E|E]);
    try (apply elem_of_nil in E; destruct E);
    injection E as -> ->; cbn [input_files]; intros Hin;
    repeat (destruct Hin as [<- | Hin]); try destruct Hin;
    try congruence;
    vm_compute; intros Hres; try discriminate;
    injection Hres as <-; vm_compute; lia.
Qed.

(** [t] declares two data items; [x] declares a file outside of the data
    directory. *)
Lemma get_dependencies_resolves_witness :
  get_dependencies Demo.git (Demo.node "t") Demo.clean =
    mkRes (Ret [Demo.item "c"; Demo.item "short"]) Demo.clean
          [EvPrintInputFiles ["data/c"; "data/short"]] /\
  exists msg,
    contains "/tmp/in" msg /\
    get_dependencies Demo.git (Demo.node "x") Demo.clean =
      mkRes (Raise (ReproError ("Run error: " +:+ msg))) Demo.clean
            [EvPrintInputFiles ["/tmp/in"]].
Proof.
  split.
  - destruct (get_dependencies_resolves Demo.git (Demo.node "t") Demo.clean)
      as (H & _).
    apply H. intros i [<- | [<- | []]]; eexists; vm_compute; reflexivity.
  - destruct (get_dependencies_resolves Demo.git (Demo.node "x") Demo.clean)
      as (_ & H).
    destruct (H [] "/tmp/in") as (msg & Hc & Hg);
      [intros j [] | intros d; vm_compute; discriminate |].
    exists msg. split; [exact Hc |]. apply (Hg []). reflexivity.
Defined.

(** The target [x] after the target [c]: the run stops at [x]. *)
Lemma unresolved_dependency_stops_the_run_witness :
  exists msg,
    contains "/tmp/in" msg /\
    out (reproduce_item Demo.git 5 false (Demo.item "x")
           (last_state Demo.c_changed
              (item_results Demo.git 5 false [Demo.item "c"] Demo.c_changed))) =
      Raise (ReproError ("Run error: " +:+ msg)) /\
    out (repro_data_items Demo.git 5
           [Demo.item "c"; Demo.item "x"; Demo.item "u"] Demo.c_changed) =
      Ret false.
Proof.
  destruct (unresolved_dependency_stops_the_run Demo.git 4 [Demo.item "c"]
              (Demo.item "x") [Demo.item "u"]
              ["python"; "code/x.py"; "/tmp/in"; "data/x"] [] "/tmp/in" []
              Demo.c_changed)
    as (msg & Hc & Hi & Hr);
    try (vm_compute; reflexivity); try (cbn; lia).
  - intros d'. vm_compute. discriminate.
  - exists msg. split; [exact Hc |]. split.
    + rewrite Hi. reflexivity.
    + change ([Demo.item "c"; Demo.item "x"; Demo.item "u"])
        with ([Demo.item "c"] ++ Demo.item "x" :: [Demo.item "u"]).
      rewrite Hr. reflexivity.
Defined.

(** With git actions the readiness is asked right after the lock. *)
Lemma run_checks_readiness_witness :
  exists rest,
    evs (run Demo.git 5 ["data/a"] Demo.c_changed) =
      EvLockAcquire ".dvc.lock" 5 true :: EvIsReadyToGo :: rest /\
    count is_ready_event rest = 0%nat.
Proof.
  destruct (run_checks_readiness Demo.git 5 ["data/a"] Demo.c_changed)
    as (_ & H & _); [reflexivity |].
  apply H. reflexivity.
Defined.

Lemma run_without_targets_witness :
  run Demo.git 5 [] Demo.c_changed =
    mkRes (Ret 1%Z) Demo.c_changed
      [EvLockAcquire ".dvc.lock" 5 true; EvIsReadyToGo; EvToDataItems [];
       EvLockRelease].
Proof.
  apply (run_without_targets Demo.git 5 Demo.c_changed);
    [reflexivity | right; reflexivity].
Defined.

(** Nothing changed: reproducing [a] touches nothing. *)
Lemma unchanged_node_is_left_alone_witness :
  env (st (reproduce Demo.git 5 (Demo.node "a") false Demo.clean)) =
    env Demo.clean /\
  count is_remove (evs (reproduce Demo.git 5 (Demo.node "a") false Demo.clean)) =
    0%nat /\
  count is_run_command
    (evs (reproduce Demo.git 5 (Demo.node "a") false Demo.clean)) = 0%nat /\
  out (reproduce Demo.git 5 (Demo.node "a") false Demo.clean) <> Ret true.
Proof.
  apply (unchanged_node_is_left_alone Demo.git 5 (Demo.node "a") Demo.clean).
  exact Demo_clean_unchanged.
Defined.

Lemma unchanged_repository_is_left_alone_witness :
  env (st (run Demo.git 5 ["data/a"; "data/t"] Demo.clean)) = env Demo.clean /\
  count is_remove (evs (run Demo.git 5 ["data/a"; "data/t"] Demo.clean)) = 0%nat /\
  count is_run_command (evs (run Demo.git 5 ["data/a"; "data/t"] Demo.clean)) =
    0%nat /\
  count is_commit (evs (run Demo.git 5 ["data/a"; "data/t"] Demo.clean)) = 0%nat /\
  out (run Demo.git 5 ["data/a"; "data/t"] Demo.clean) <> Ret 0%Z.
Proof.
  apply (unchanged_repository_is_left_alone Demo.git 5 ["data/a"; "data/t"]
           Demo.clean).
  exact Demo_clean_unchanged.
Defined.

(** The script of [v] changed; its command reports a failure. *)
Lemma failed_command_is_not_an_error_witness :
  out (repro_data_items Demo.git 5 [Demo.item "v"]
         (Demo.world Demo.all_files {["code/v.py"]})) = Ret false /\
  count is_error_log
    (evs (repro_data_items Demo.git 5 [Demo.item "v"]
            (Demo.world Demo.all_files {["code/v.py"]}))) = 0%nat.
Proof.
  destruct (failed_command_is_not_an_error Demo.git 4 (Demo.item "v")
              ["false"; "data/v"] []
              (mkEnv (Demo.all_files ∖ {["data/v"]}) {["code/v.py"]})
              (Demo.world Demo.all_files {["code/v.py"]}))
    as (Ho & _ & He & _);
    try (vm_compute; reflexivity); try (cbn; lia).
  split; [exact Ho | exact He].
Defined.

(** Two targets return, the third raises: two lines. *)
Lemma one_info_line_per_target_witness :
  count is_info_log
    (evs (repro_data_items Demo.git 5
            [Demo.item "c"; Demo.item "u"; Demo.item "noargv"] Demo.c_changed)) =
    2%nat.
Proof.
  destruct (one_info_line_per_target Demo.git 5
              [Demo.item "c"; Demo.item "u"; Demo.item "noargv"] Demo.c_changed)
    as (H & _).
  rewrite H. vm_compute. reflexivity.
Defined.

(** The rank of [a] is 2: a depth of 3 suffices for a run on [a]. *)
Lemma acyclic_dependencies_terminate_witness :
  out (run Demo.acyclic 3 ["data/a"] Demo.c_changed) <> OutOfFuel.
Proof.
  destruct (acyclic_dependencies_terminate Demo.acyclic Demo.rank
              Demo_rank_decreases) as (_ & H).
  apply (H 3%nat ["data/a"] Demo.c_changed).
  intros d [<- | []]. vm_compute. lia.
Defined.
